(** * icanhazqrcode: the request validation and response assembly pipeline

    A shallow embedding of [src/index.ts], the Cloudflare Worker behind
    icanhazqrcode, and the properties of its option normaliser, input
    extractor, response builder, ad configuration sanitiser and router.

    Conventions of the embedding.
    - A JavaScript string is the list of its UTF-16 code units ([jsstring]);
      [js "..."] turns a literal into one.  [length] is then [String.length]
      and [nth] is [charCodeAt].
    - A JavaScript [number] that may be [NaN] is an [option Z] ([None] is
      [NaN]).  [Number.parseInt] only ever yields [NaN], an integer or, for
      digit strings beyond the range of a double, an infinity; the latter
      fails [Number.isInteger] and is reported with the very message that the
      range test gives the exact integer here, so the integer is kept exactly.
    - The QR codec ([qrcode-generator]) is an external library: it is a
      parameter of the pipeline, and every call made to it is logged so that
      "the codec is (not) invoked" is a statement about the log.
    - The fixed text of the landing page (styling, copy, embedded image) is a
      parameter too; the places where the handler interpolates a value are
      modelled one by one. *)

From Stdlib Require Import ZArith NArith List String Ascii Bool Lia.
Import ListNotations.

Local Open Scope N_scope.

(** ** JavaScript strings *)

Definition jsstring := list N.

Definition js (s : string) : jsstring :=
  List.map N_of_ascii (list_ascii_of_string s).

(** The double quote, the backslash and the line feed, which the literals
    below are assembled with. *)
Definition dq : jsstring := [34].
Definition backslash : jsstring := [92].
Definition nl : jsstring := [10].

Fixpoint jseqb (a b : jsstring) : bool :=
  match a, b with
  | [], [] => true
  | x :: a', y :: b' => (x =? y) && jseqb a' b'
  | _, _ => false
  end.

(** [a.startsWith(p)], as a boolean. *)
Fixpoint startsWith (p a : jsstring) : bool :=
  match p, a with
  | [], _ => true
  | x :: p', y :: a' => (x =? y) && startsWith p' a'
  | _ :: _, [] => false
  end.

(** [hay.includes(needle)]. *)
Fixpoint includes (needle hay : jsstring) : bool :=
  startsWith needle hay ||
  match hay with
  | [] => false
  | _ :: hay' => includes needle hay'
  end.

(** Removes a prefix known to be there. *)
Fixpoint stripPrefix (p a : jsstring) : option jsstring :=
  match p, a with
  | [], _ => Some a
  | x :: p', y :: a' => if x =? y then stripPrefix p' a' else None
  | _ :: _, [] => None
  end.

(** [\d] of a regular expression without the [u] flag: ASCII digits only. *)
Definition isDigit (c : N) : bool := (48 <=? c) && (c <=? 57).

(** ECMAScript [WhiteSpace] and [LineTerminator] code units, the set that
    [trim] and [parseInt] strip. *)
Definition isWhiteSpace (c : N) : bool :=
  ((9 <=? c) && (c <=? 13)) || (c =? 32) || (c =? 160) || (c =? 5760)
  || ((8192 <=? c) && (c <=? 8202)) || (c =? 8232) || (c =? 8233)
  || (c =? 8239) || (c =? 8287) || (c =? 12288) || (c =? 65279).

Fixpoint trimStart (s : jsstring) : jsstring :=
  match s with
  | [] => []
  | c :: s' => if isWhiteSpace c then trimStart s' else s
  end.

Definition trimEnd (s : jsstring) : jsstring := rev (trimStart (rev s)).

Definition trim (s : jsstring) : jsstring := trimEnd (trimStart s).

(** [toUpperCase].  The ASCII range is mapped exactly.  Outside of it the
    Unicode case tables apply in JavaScript; the code unit is kept here.  No
    string with a non-ASCII unit has one of the one-letter strings [L], [M],
    [Q], [H] as its upper case, so membership in the allowed set, the only
    use the worker makes of the result besides passing an allowed value on,
    is the same. *)
Definition toUpperCaseUnit (c : N) : N :=
  if (97 <=? c) && (c <=? 122) then c - 32 else c.

Definition toUpperCase (s : jsstring) : jsstring := List.map toUpperCaseUnit s.

(** ** Numbers and their text *)

(** Decimal digits of a non-negative integer, most significant first. *)
Fixpoint digitsOf (fuel : nat) (n : Z) (acc : jsstring) : jsstring :=
  match fuel with
  | O => acc
  | S fuel' =>
      let acc' := (48 + Z.to_N (n mod 10)) :: acc in
      if (n / 10 =? 0)%Z then acc' else digitsOf fuel' (n / 10)%Z acc'
  end.

(** [String(n)] for an integral [n] printed in plain digits. *)
Definition String_of_Z (n : Z) : jsstring :=
  if (n <? 0)%Z
  then 45 :: digitsOf (S (Z.to_nat (Z.log2 (- n)))) (- n)%Z []
  else digitsOf (S (Z.to_nat (Z.log2 n))) n [].

(** A [number]: [None] is [NaN]. *)
Definition number := option Z.

Definition Number_isInteger (n : number) : bool :=
  match n with Some _ => true | None => false end.

(** Comparisons with [NaN] are false. *)
Definition num_leb (n : number) (k : Z) : bool :=
  match n with Some z => (z <=? k)%Z | None => false end.
Definition num_ltb (n : number) (k : Z) : bool :=
  match n with Some z => (z <? k)%Z | None => false end.
Definition num_gtb (n : number) (k : Z) : bool :=
  match n with Some z => (z >? k)%Z | None => false end.

(** Value of a run of decimal digits read left to right. *)
Fixpoint digitsValue (acc : Z) (s : jsstring) : Z :=
  match s with
  | [] => acc
  | c :: s' => digitsValue (10 * acc + (Z.of_N c - 48))%Z s'
  end.

Fixpoint takeDigits (s : jsstring) : jsstring :=
  match s with
  | [] => []
  | c :: s' => if isDigit c then c :: takeDigits s' else []
  end.

(** [Number.parseInt(input, 10)]: leading white space is dropped, one sign
    is read, then the longest run of decimal digits; what follows the run is
    ignored, and an empty run gives [NaN].  With radix 10 no [0x] prefix is
    recognised. *)
Definition Number_parseInt10 (input : jsstring) : number :=
  let s := trimStart input in
  let '(sign, s) :=
    match s with
    | 45 :: s' => ((-1)%Z, s')
    | 43 :: s' => (1%Z, s')
    | _ => (1%Z, s)
    end in
  match takeDigits s with
  | [] => None
  | ds => Some (sign * digitsValue 0 ds)%Z
  end.

(** ** JSON values and [JSON.stringify] *)

(** A finite number as [JSON.parse] delivers it.  [NumInt z] is a safe
    integer (of magnitude below 2^53), for which [String] gives the decimal
    digits of [z]; [NumOther text] is any other number (a fraction, or a
    magnitude from 2^53 on, where [String] rounds the digits and from 10^21
    on writes an exponent), kept by the text that [String] gives for it, the
    one operation the worker applies to a body number.  Statements about
    [NumInt z] carry the bound on [z]. *)
Inductive JSNumber :=
| NumInt (z : Z)
| NumOther (text : jsstring).

Definition String_of_number (n : JSNumber) : jsstring :=
  match n with
  | NumInt z => String_of_Z z
  | NumOther text => text
  end.

#[warnings="-register-all"]
Inductive JSValue :=
| JNull
| JBool (b : bool)
| JNumber (n : JSNumber)
| JString (s : jsstring)
| JArray (items : list JSValue)
| JObject (fields : list (jsstring * JSValue)).

Definition hexDigit (d : N) : N := if d <? 10 then 48 + d else 87 + d.

(** The four lowercase hexadecimal digits of a code unit. *)
Definition hex4 (c : N) : jsstring :=
  [hexDigit (c / 4096 mod 16); hexDigit (c / 256 mod 16);
   hexDigit (c / 16 mod 16); hexDigit (c mod 16)].

Definition isHighSurrogate (c : N) : bool := (55296 <=? c) && (c <=? 56319).
Definition isLowSurrogate (c : N) : bool := (56320 <=? c) && (c <=? 57343).

Definition unicodeEscape (c : N) : jsstring := backslash ++ js "u" ++ hex4 c.

(** One code unit that is not part of a surrogate pair, as [QuoteJSONString]
    writes it. *)
Definition quoteUnit (c : N) : jsstring :=
  if c =? 34 then backslash ++ dq
  else if c =? 92 then backslash ++ backslash
  else if c =? 8 then backslash ++ js "b"
  else if c =? 9 then backslash ++ js "t"
  else if c =? 10 then backslash ++ js "n"
  else if c =? 12 then backslash ++ js "f"
  else if c =? 13 then backslash ++ js "r"
  else if c <? 32 then unicodeEscape c
  else if isHighSurrogate c || isLowSurrogate c then unicodeEscape c
  else [c].

Fixpoint quoteUnits (s : jsstring) : jsstring :=
  match s with
  | [] => []
  | c :: rest =>
      if isHighSurrogate c then
        match rest with
        | d :: rest' =>
            if isLowSurrogate d then c :: d :: quoteUnits rest'
            else quoteUnit c ++ quoteUnits rest
        | [] => quoteUnit c
        end
      else quoteUnit c ++ quoteUnits rest
  end.

Definition quoteJSONString (s : jsstring) : jsstring :=
  dq ++ quoteUnits s ++ dq.

Fixpoint joinComma (parts : list jsstring) : jsstring :=
  match parts with
  | [] => []
  | [p] => p
  | p :: rest => p ++ js "," ++ joinComma rest
  end.

Fixpoint JSON_stringify (v : JSValue) : jsstring :=
  match v with
  | JNull => js "null"
  | JBool true => js "true"
  | JBool false => js "false"
  | JNumber n => String_of_number n
  | JString s => quoteJSONString s
  | JArray items =>
      js "[" ++ joinComma (List.map JSON_stringify items) ++ js "]"
  | JObject fields =>
      js "{" ++
      joinComma
        (List.map
           (fun kv => quoteJSONString (fst kv) ++ js ":" ++ JSON_stringify (snd kv))
           fields) ++
      js "}"
  end.

(** Property lookup on a parsed JSON value: [undefined] ([None]) unless the
    value is an object with that key.  A parsed object holds one value per
    key. *)
Fixpoint lookupField (key : jsstring) (fields : list (jsstring * JSValue))
  : option JSValue :=
  match fields with
  | [] => None
  | (k, v) :: rest => if jseqb k key then Some v else lookupField key rest
  end.

Definition getProperty (v : JSValue) (key : jsstring) : option JSValue :=
  match v with
  | JObject fields => lookupField key fields
  | _ => None
  end.

(** ** Responses *)

Inductive Body :=
| BodyText (text : jsstring)
| BodyBytes (bytes : list N).

Record Response := mkResponse {
  status : Z;
  headers : list (jsstring * jsstring);
  body : Body
}.

(** [headers.get(name)] on the header list of a response built here. *)
Fixpoint getHeader (name : jsstring) (hs : list (jsstring * jsstring))
  : option jsstring :=
  match hs with
  | [] => None
  | (k, v) :: rest => if jseqb k name then Some v else getHeader name rest
  end.

(** The header pair every JSON response is sent with. *)
Definition jsonHeaders : list (jsstring * jsstring) :=
  [ (js "content-type", js "application/json; charset=utf-8");
    (js "cache-control", js "no-store") ].

(** [json(value, status = 200)]; [None] is the omitted argument. *)
Definition json (value : JSValue) (status : option Z) : Response :=
  {| status := match status with Some s => s | None => 200%Z end;
     headers := jsonHeaders;
     body := BodyText (JSON_stringify value) |}.

Definition badRequest (message : jsstring) : Response :=
  json (JObject [(js "error", JString message)]) (Some 400%Z).

Definition notFound : Response :=
  json
    (JObject
       [ (js "error", JString (js "Not Found"));
         (js "hint",
          JString
            (js "Use GET /qr?data=hello or POST /qr with raw text or JSON {"
             ++ dq ++ js "data" ++ dq ++ js ":" ++ dq ++ js "hello" ++ dq
             ++ js "}")) ])
    (Some 404%Z).

Definition healthEndpoints : list jsstring :=
  [ js "GET / (landing page with QR form + optional ad slot)";
    js "GET /robots.txt";
    js "GET /sitemap.xml";
    js "GET /llms.txt";
    js "GET /qr?data=<text>&scale=8&border=4&ecc=M";
    js "POST /qr (text/plain or application/json {data, scale, border, ecc})" ].

Definition healthResponse : Response :=
  json
    (JObject
       [ (js "service", JString (js "icanhazqrcode"));
         (js "endpoints", JArray (List.map JString healthEndpoints)) ])
    None.

(** ** Constants of the worker *)

Definition MAX_DATA_LENGTH : Z := 2048.
Definition DEFAULT_SCALE : Z := 8.
Definition MAX_SCALE : Z := 40.
Definition DEFAULT_BORDER : Z := 4.
Definition MAX_BORDER : Z := 20.
Definition DEFAULT_ERROR_CORRECTION : jsstring := js "M".
Definition ALLOWED_ERROR_CORRECTION : list jsstring :=
  [js "L"; js "M"; js "Q"; js "H"].

(** [set.has(x)]. *)
Definition Set_has (set : list jsstring) (x : jsstring) : bool :=
  existsb (jseqb x) set.

(** ** Ad configuration sanitiser *)

Record Env := mkEnv {
  ADSENSE_CLIENT : option jsstring;
  ADSENSE_SLOT : option jsstring
}.

(** Truthiness of a [string | null | undefined]. *)
Definition truthy (v : option jsstring) : bool :=
  match v with
  | Some (_ :: _) => true
  | _ => false
  end.

(** [v || d] for a [string | null] on the left. *)
Definition orString (v : option jsstring) (d : jsstring) : jsstring :=
  match v with
  | Some (c :: s) => c :: s
  | _ => d
  end.

(** [/^\d{lo,hi}$/.test(s)]. *)
Definition digitsBetween (lo hi : nat) (s : jsstring) : bool :=
  forallb isDigit s && (lo <=? List.length s)%nat && (List.length s <=? hi)%nat.

(** [/^ca-pub-\d{10,20}$/.test(value)]. *)
Definition adClientPattern (value : jsstring) : bool :=
  match stripPrefix (js "ca-pub-") value with
  | Some rest => digitsBetween 10 20 rest
  | None => false
  end.

(** [/^\d{5,20}$/.test(value)]. *)
Definition adSlotPattern (value : jsstring) : bool := digitsBetween 5 20 value.

Definition safeAdClient (value : option jsstring) : option jsstring :=
  if negb (truthy value) then None
  else match value with
       | Some v => if adClientPattern v then Some v else None
       | None => None
       end.

Definition safeAdSlot (value : option jsstring) : option jsstring :=
  if negb (truthy value) then None
  else match value with
       | Some v => if adSlotPattern v then Some v else None
       | None => None
       end.

Definition adsenseScriptSrc : jsstring :=
  js "https://pagead2.googlesyndication.com/pagead/js/adsbygoogle.js?client=".

Definition adsenseScriptMarkup (adClient : jsstring) : jsstring :=
  js "<script async src=" ++ dq ++ adsenseScriptSrc ++ adClient ++ dq
  ++ js " crossorigin=" ++ dq ++ js "anonymous" ++ dq ++ js "></script>".

Definition adsenseMetaMarkup (adClient : jsstring) : jsstring :=
  js "<meta name=" ++ dq ++ js "google-adsense-account" ++ dq
  ++ js " content=" ++ dq ++ adClient ++ dq ++ js ">".

Definition adUnitMarkup (adClient adSlot : jsstring) : jsstring :=
  js "<ins class=" ++ dq ++ js "adsbygoogle" ++ dq ++ nl
  ++ js "     style=" ++ dq ++ js "display:block" ++ dq ++ nl
  ++ js "     data-ad-client=" ++ dq ++ adClient ++ dq ++ nl
  ++ js "     data-ad-slot=" ++ dq ++ adSlot ++ dq ++ nl
  ++ js "     data-ad-format=" ++ dq ++ js "auto" ++ dq ++ nl
  ++ js "     data-full-width-responsive=" ++ dq ++ js "true" ++ dq
  ++ js "></ins>" ++ nl
  ++ js "  <script>(adsbygoogle=window.adsbygoogle||[]).push({});</script>".

Definition fallbackAdMarkup : jsstring :=
  js "<div class=" ++ dq ++ js "ad-fallback" ++ dq ++ js ">" ++ nl
  ++ js "    Ads are not configured yet. Replace this with your sponsor link, donation URL, or merch CTA until ad inventory is live."
  ++ nl ++ js "  </div>".

(** ** Requests *)

Record URL := mkURL {
  protocol : jsstring;
  host : jsstring;
  pathname : jsstring;
  (** the decoded name/value pairs of the query string, in order *)
  searchParams : list (jsstring * jsstring)
}.

(** [url.searchParams.get(name)]: the first value of that name, or [null]. *)
Fixpoint searchParams_get (params : list (jsstring * jsstring)) (name : jsstring)
  : option jsstring :=
  match params with
  | [] => None
  | (k, v) :: rest => if jseqb k name then Some v else searchParams_get rest name
  end.

(** [`${url.protocol}//${url.host}`]. *)
Definition originOf (url : URL) : jsstring := protocol url ++ js "//" ++ host url.

(** ** Landing page *)

(** The fixed text of the landing page template, cut at the places where the
    handler interpolates a request- or configuration-dependent value.  The
    FAQ block and the numeric limits, which do not depend on either, belong
    to the fixed text. *)
Record PageText := mkPageText {
  uptoCanonical : jsstring;
  uptoOgUrl : jsstring;
  uptoAdMeta : jsstring;
  uptoAdScript : jsstring;
  uptoAdMarkup : jsstring;
  uptoGetExample : jsstring;
  uptoPostExample : jsstring;
  pageRest : jsstring
}.

(** The non-null assertion [v!] inside a template literal. *)
Definition bang (v : option jsstring) : jsstring :=
  match v with Some s => s | None => js "null" end.

Definition landingPageHtml (text : PageText) (url : URL) (env : Env) : jsstring :=
  let adClient := safeAdClient (ADSENSE_CLIENT env) in
  let adSlot := safeAdSlot (ADSENSE_SLOT env) in
  let adEnabled := truthy adClient && truthy adSlot in
  let adMarkup :=
    if adEnabled then adUnitMarkup (bang adClient) (bang adSlot)
    else fallbackAdMarkup in
  let adScript := if truthy adClient then adsenseScriptMarkup (bang adClient) else [] in
  let adMeta := if truthy adClient then adsenseMetaMarkup (bang adClient) else [] in
  let siteUrl := originOf url in
  uptoCanonical text ++ siteUrl ++ uptoOgUrl text ++ siteUrl
  ++ uptoAdMeta text ++ adMeta
  ++ uptoAdScript text ++ adScript
  ++ uptoAdMarkup text ++ adMarkup
  ++ uptoGetExample text ++ siteUrl ++ uptoPostExample text ++ siteUrl
  ++ pageRest text.

Definition landingPage (text : PageText) (url : URL) (env : Env) : Response :=
  {| status := 200%Z;
     headers :=
       [ (js "content-type", js "text/html; charset=utf-8");
         (js "cache-control", js "public, max-age=300") ];
     body := BodyText (landingPageHtml text url env) |}.

(** ** The other static documents *)

Definition textResponse (contentType : jsstring) (text : jsstring) : Response :=
  {| status := 200%Z;
     headers :=
       [ (js "content-type", contentType);
         (js "cache-control", js "public, max-age=3600") ];
     body := BodyText text |}.

Definition robotsTxt (url : URL) : Response :=
  let origin := originOf url in
  textResponse (js "text/plain; charset=utf-8")
    (js "User-agent: *" ++ nl ++ js "Allow: /" ++ nl ++ nl
     ++ js "User-agent: OAI-SearchBot" ++ nl ++ js "Allow: /" ++ nl ++ nl
     ++ js "User-agent: GPTBot" ++ nl ++ js "Allow: /" ++ nl ++ nl
     ++ js "User-agent: ClaudeBot" ++ nl ++ js "Allow: /" ++ nl ++ nl
     ++ js "User-agent: Google-Extended" ++ nl ++ js "Allow: /" ++ nl ++ nl
     ++ js "Sitemap: " ++ origin ++ js "/sitemap.xml" ++ nl).

Definition sitemapXml (url : URL) : Response :=
  let origin := originOf url in
  textResponse (js "application/xml; charset=utf-8")
    (js "<?xml version=" ++ dq ++ js "1.0" ++ dq ++ js " encoding=" ++ dq
     ++ js "UTF-8" ++ dq ++ js "?>" ++ nl
     ++ js "<urlset xmlns=" ++ dq
     ++ js "http://www.sitemaps.org/schemas/sitemap/0.9" ++ dq ++ js ">" ++ nl
     ++ js "  <url>" ++ nl
     ++ js "    <loc>" ++ origin ++ js "/</loc>" ++ nl
     ++ js "  </url>" ++ nl
     ++ js "</urlset>").

(** The usage notes: their text is a function of the origin, taken as given. *)
Definition llmsTxt (notes : jsstring -> jsstring) (url : URL) : Response :=
  let origin := originOf url in
  textResponse (js "text/plain; charset=utf-8") (notes origin).

(** ** Option normaliser *)

Module Input.
Record t := mk {
  scale : option jsstring;
  border : option jsstring;
  ecc : option jsstring
}.
End Input.

Module Options.
Record t := mk {
  scale : number;
  border : number;
  ecc : jsstring
}.
End Options.

(** The two shapes of the result of [parseOptions]. *)
Inductive Parsed :=
| Valid (options : Options.t)
| Invalid (error : jsstring).

Definition parseIntOrDefault (input : option jsstring) (fallback : Z) : number :=
  match input with
  | None => Some fallback
  | Some s =>
      if jseqb (trim s) [] then Some fallback
      else Number_parseInt10 s
  end.

Definition scaleError : jsstring :=
  js "scale must be an integer between 1 and " ++ String_of_Z MAX_SCALE.

Definition borderError : jsstring :=
  js "border must be an integer between 0 and " ++ String_of_Z MAX_BORDER.

Definition eccError : jsstring := js "ecc must be one of: L, M, Q, H".

Definition parseOptions (input : Input.t) : Parsed :=
  let scale := parseIntOrDefault (Input.scale input) DEFAULT_SCALE in
  let border := parseIntOrDefault (Input.border input) DEFAULT_BORDER in
  let eccRaw :=
    toUpperCase
      (match Input.ecc input with
       | Some e => e
       | None => DEFAULT_ERROR_CORRECTION
       end) in
  if negb (Number_isInteger scale) || num_leb scale 0 || num_gtb scale MAX_SCALE
  then Invalid scaleError
  else if negb (Number_isInteger border) || num_ltb border 0
          || num_gtb border MAX_BORDER
  then Invalid borderError
  else if negb (Set_has ALLOWED_ERROR_CORRECTION eccRaw)
  then Invalid eccError
  else Valid {| Options.scale := scale; Options.border := border;
                Options.ecc := eccRaw |}.

(** ** Entity tag *)

Local Open Scope Z_scope.

(** [ToInt32] and [ToUint32] of an integral number. *)
Definition toInt32 (z : Z) : Z := (z + 2 ^ 31) mod 2 ^ 32 - 2 ^ 31.
Definition toUint32 (z : Z) : Z := z mod 2 ^ 32.

(** [a ^ b]: both operands through [ToInt32], the result a signed 32-bit
    integer. *)
Definition bitXor (a b : Z) : Z := Z.lxor (toInt32 a) (toInt32 b).

(** [Math.imul(a, b)]: the low 32 bits of the product, signed. *)
Definition Math_imul (a b : Z) : Z := toInt32 (toUint32 a * toUint32 b).

(** Hexadecimal digits of a non-negative integer, most significant first. *)
Fixpoint hexDigitsOf (fuel : nat) (n : Z) (acc : jsstring) : jsstring :=
  match fuel with
  | O => acc
  | S fuel' =>
      let acc' := hexDigit (Z.to_N (n mod 16)) :: acc in
      if n / 16 =? 0 then acc' else hexDigitsOf fuel' (n / 16) acc'
  end.

(** [n.toString(16)] for a non-negative integral [n]. *)
Definition toString16 (n : Z) : jsstring :=
  hexDigitsOf (S (Z.to_nat (Z.log2 n))) n [].

(** The loop of [simpleHash]: one round per code unit. *)
Definition hashStep (hash : Z) (code : N) : Z :=
  Math_imul (bitXor hash (Z.of_N code)) 16777619.

Definition simpleHash (value : jsstring) : jsstring :=
  let hash := fold_left hashStep value 2166136261 in
  toString16 (toUint32 hash).

(** 32-bit FNV-1a over a byte sequence, as the algorithm is published: start
    from the offset basis; for every byte, exclusive-or it into the hash, then
    multiply by the FNV prime modulo [2^32]. *)
Definition fnv1a32 (bytes : list N) : Z :=
  fold_left (fun h b => (Z.lxor h (Z.of_N b) * 16777619) mod 2 ^ 32)
    bytes 2166136261.

Local Close Scope Z_scope.

(** [new TextEncoder().encode(s)]: the UTF-8 bytes of the string, a lone
    surrogate being replaced by U+FFFD. *)
Definition utf8Replacement : list N := [239; 191; 189].

Definition utf8Of (cp : N) : list N :=
  if cp <? 128 then [cp]
  else if cp <? 2048 then [192 + cp / 64; 128 + cp mod 64]
  else if cp <? 65536 then
    [224 + cp / 4096; 128 + cp / 64 mod 64; 128 + cp mod 64]
  else
    [240 + cp / 262144; 128 + cp / 4096 mod 64; 128 + cp / 64 mod 64;
     128 + cp mod 64].

Fixpoint TextEncoder_encode (s : jsstring) : list N :=
  match s with
  | [] => []
  | c :: rest =>
      if isHighSurrogate c then
        match rest with
        | d :: rest' =>
            if isLowSurrogate d
            then utf8Of (65536 + (c - 55296) * 1024 + (d - 56320))
                 ++ TextEncoder_encode rest'
            else utf8Replacement ++ TextEncoder_encode rest
        | [] => utf8Replacement
        end
      else if isLowSurrogate c then utf8Replacement ++ TextEncoder_encode rest
      else utf8Of c ++ TextEncoder_encode rest
  end.

(** ** The codec boundary *)

(** What the worker hands to [qrcode-generator]: [qrcode(0, ecc)],
    [addData(data)], [make()] and [createSvgTag] with the cell size and the
    margin (the remaining arguments of [createSvgTag] are constants). *)
Record CodecCall := mkCodecCall {
  callEcc : jsstring;
  callData : jsstring;
  cellSize : number;
  margin : number
}.

(** The run of those four calls either delivers the SVG text or throws. *)
Inductive CodecResult :=
| Svg (svg : jsstring)
| Throws (cause : jsstring).

Definition Codec := CodecCall -> CodecResult.

(** A response together with the codec calls made on the way to it, oldest
    first. *)
Record Outcome := mkOutcome {
  response : Response;
  codecCalls : list CodecCall
}.

(** A response reached without touching the codec. *)
Definition direct (r : Response) : Outcome :=
  {| response := r; codecCalls := [] |}.

(** ** Response builder *)

Definition dataTooLong : jsstring :=
  js "Data too long. Max length is " ++ String_of_Z MAX_DATA_LENGTH
  ++ js " characters.".

Definition unableToEncode : jsstring :=
  js "Unable to encode QR for the provided input and options".

Definition weakEtag (hash : jsstring) : jsstring := js "W/" ++ dq ++ hash ++ dq.

Definition imageResponse (svg : jsstring) : Response :=
  let body := TextEncoder_encode svg in
  let etag := weakEtag (simpleHash svg) in
  {| status := 200%Z;
     headers :=
       [ (js "content-type", js "image/svg+xml; charset=utf-8");
         (js "content-length", String_of_Z (Z.of_nat (List.length body)));
         (js "cache-control", js "public, max-age=300");
         (js "etag", etag);
         (js "x-content-type-options", js "nosniff") ];
     body := BodyBytes body |}.

Definition buildQrResponse (codec : Codec) (data : jsstring) (options : Options.t)
  : Outcome :=
  if (Z.of_nat (List.length data) >? MAX_DATA_LENGTH)%Z
  then direct (badRequest dataTooLong)
  else
    let call :=
      {| callEcc := Options.ecc options; callData := data;
         cellSize := Options.scale options; margin := Options.border options |} in
    match codec call with
    | Throws _ =>
        {| response := badRequest unableToEncode; codecCalls := [call] |}
    | Svg svg =>
        {| response := imageResponse svg; codecCalls := [call] |}
    end.

(** ** Input extractor *)

Definition qrFromQuery (codec : Codec) (url : URL) : Outcome :=
  let data := searchParams_get (searchParams url) (js "data") in
  if negb (truthy data)
  then direct (badRequest (js "Missing required query parameter: data"))
  else
    match
      parseOptions
        {| Input.scale := searchParams_get (searchParams url) (js "scale");
           Input.border := searchParams_get (searchParams url) (js "border");
           Input.ecc := searchParams_get (searchParams url) (js "ecc") |}
    with
    | Invalid error => direct (badRequest error)
    | Valid options => buildQrResponse codec (bang data) options
    end.

Record Request := mkRequest {
  method : jsstring;
  url : URL;
  (** [request.headers.get("content-type")] *)
  contentTypeHeader : option jsstring;
  (** what [request.text()] resolves to *)
  requestText : jsstring;
  (** what [request.json()] resolves to, [None] when it rejects *)
  requestJson : option JSValue
}.

(** [!body || typeof body !== "object"] for a parsed JSON value.  [null] is
    falsy; arrays and objects are the values whose [typeof] is [object] and
    both are truthy. *)
Definition notAnObject (body : JSValue) : bool :=
  match body with
  | JObject _ | JArray _ => false
  | _ => true
  end.

(** [typeof v === "number" || typeof v === "string" ? String(v) : fallback]. *)
Definition numberOrStringField (v : option JSValue) (fallback : option jsstring)
  : option jsstring :=
  match v with
  | Some (JNumber n) => Some (String_of_number n)
  | Some (JString s) => Some s
  | _ => fallback
  end.

(** [typeof v === "string" ? v : fallback]. *)
Definition stringField (v : option JSValue) (fallback : option jsstring)
  : option jsstring :=
  match v with
  | Some (JString s) => Some s
  | _ => fallback
  end.

(** The first part of [qrFromBody], up to the point where the payload and the
    raw options are settled: either an early response, or the payload (still
    possibly [null]) with the raw option values. *)
Definition qrFromBody_extract (request : Request) (url : URL)
  : Response + (option jsstring * Input.t) :=
  let contentType := orString (contentTypeHeader request) [] in
  let scale := searchParams_get (searchParams url) (js "scale") in
  let border := searchParams_get (searchParams url) (js "border") in
  let ecc := searchParams_get (searchParams url) (js "ecc") in
  if includes (js "application/json") contentType then
    match requestJson request with
    | None => inl (badRequest (js "Invalid JSON body"))
    | Some body =>
        if notAnObject body
        then inl (badRequest (js "JSON body must be an object"))
        else
          let payload := body in
          let data := stringField (getProperty payload (js "data")) None in
          let scale := numberOrStringField (getProperty payload (js "scale")) scale in
          let border :=
            numberOrStringField (getProperty payload (js "border")) border in
          let ecc := stringField (getProperty payload (js "ecc")) ecc in
          inr (data,
               {| Input.scale := scale; Input.border := border; Input.ecc := ecc |})
    end
  else
    inr (Some (requestText request),
         {| Input.scale := scale; Input.border := border; Input.ecc := ecc |}).

Definition qrFromBody (codec : Codec) (request : Request) (url : URL) : Outcome :=
  match qrFromBody_extract request url with
  | inl early => direct early
  | inr (data, input) =>
      if negb (truthy data)
      then direct (badRequest (js "Missing data in request body"))
      else
        match parseOptions input with
        | Invalid error => direct (badRequest error)
        | Valid options => buildQrResponse codec (bang data) options
        end
  end.

(** ** Router *)

(** What the deployment fixes besides the code: the page text, the usage
    notes and the codec. *)
Record World := mkWorld {
  pageText : PageText;
  usageNotes : jsstring -> jsstring;
  qrcode : Codec
}.

Definition routeIs (request : Request) (m path : jsstring) : bool :=
  jseqb (method request) m && jseqb (pathname (url request)) path.

Definition fetch (w : World) (request : Request) (env : Env) : Outcome :=
  let url := url request in
  if routeIs request (js "GET") (js "/")
  then direct (landingPage (pageText w) url env)
  else if routeIs request (js "GET") (js "/health")
  then direct healthResponse
  else if routeIs request (js "GET") (js "/robots.txt")
  then direct (robotsTxt url)
  else if routeIs request (js "GET") (js "/sitemap.xml")
  then direct (sitemapXml url)
  else if routeIs request (js "GET") (js "/llms.txt")
  then direct (llmsTxt (usageNotes w) url)
  else if routeIs request (js "GET") (js "/qr")
  then qrFromQuery (qrcode w) url
  else if routeIs request (js "POST") (js "/qr")
  then qrFromBody (qrcode w) request url
  else direct notFound.

(** ** The extraction strategies, as the design describes them *)

(** Where the payload and the raw options of an encoding request come from. *)
Inductive Source := FromQuery | FromJsonBody | FromRawBody.

(** What a JSON body supplies for a numeric option: the text of a number- or
    string-typed field, nothing otherwise. *)
Definition suppliedNumeric (payload : JSValue) (key : jsstring) : option jsstring :=
  match getProperty payload key with
  | Some (JNumber n) => Some (String_of_number n)
  | Some (JString s) => Some s
  | _ => None
  end.

(** What a JSON body supplies for a textual field: a string-typed field. *)
Definition suppliedString (payload : JSValue) (key : jsstring) : option jsstring :=
  match getProperty payload key with
  | Some (JString s) => Some s
  | _ => None
  end.

(** The precedence rule: the body's value when it supplies one, the query's
    otherwise. *)
Definition preferBody (fromBody fromQuery : option jsstring) : option jsstring :=
  match fromBody with
  | Some v => Some v
  | None => fromQuery
  end.

Definition queryOption (request : Request) (name : jsstring) : option jsstring :=
  searchParams_get (searchParams (url request)) name.

Definition queryOptions (request : Request) : Input.t :=
  {| Input.scale := queryOption request (js "scale");
     Input.border := queryOption request (js "border");
     Input.ecc := queryOption request (js "ecc") |}.

Definition declaresJson (request : Request) : bool :=
  includes (js "application/json") (orString (contentTypeHeader request) []).

(** [Extracted request source data input]: the request is one to the encoding
    endpoint, and [data] (absent when [None]) and [input] are the payload and
    raw options its extraction strategy [source] yields. *)
Inductive Extracted : Request -> Source -> option jsstring -> Input.t -> Prop :=
| ExtractedQuery request :
    method request = js "GET" ->
    pathname (url request) = js "/qr" ->
    Extracted request FromQuery (queryOption request (js "data"))
      (queryOptions request)
| ExtractedJson request payload :
    method request = js "POST" ->
    pathname (url request) = js "/qr" ->
    declaresJson request = true ->
    requestJson request = Some payload ->
    notAnObject payload = false ->
    Extracted request FromJsonBody (suppliedString payload (js "data"))
      {| Input.scale :=
           preferBody (suppliedNumeric payload (js "scale"))
             (queryOption request (js "scale"));
         Input.border :=
           preferBody (suppliedNumeric payload (js "border"))
             (queryOption request (js "border"));
         Input.ecc :=
           preferBody (suppliedString payload (js "ecc"))
             (queryOption request (js "ecc")) |}
| ExtractedRaw request :
    method request = js "POST" ->
    pathname (url request) = js "/qr" ->
    declaresJson request = false ->
    Extracted request FromRawBody (Some (requestText request))
      (queryOptions request).

Definition missingData (source : Source) : jsstring :=
  match source with
  | FromQuery => js "Missing required query parameter: data"
  | FromJsonBody | FromRawBody => js "Missing data in request body"
  end.

(** The codec call that a payload and a set of options amount to. *)
Definition codecCallFor (data : jsstring) (options : Options.t) : CodecCall :=
  {| callEcc := Options.ecc options; callData := data;
     cellSize := Options.scale options; margin := Options.border options |}.

(** What the handlers do once payload and raw options are settled. *)
Definition settle (codec : Codec) (source : Source) (data : option jsstring)
           (input : Input.t) : Outcome :=
  if negb (truthy data) then direct (badRequest (missingData source))
  else
    match parseOptions input with
    | Invalid error => direct (badRequest error)
    | Valid options => buildQrResponse codec (bang data) options
    end.

(** ** The option contract, field by field *)

(** The number a raw scale stands for, and likewise the border; the
    normalised error-correction level. *)
Definition scaleOf (input : Input.t) : number :=
  parseIntOrDefault (Input.scale input) DEFAULT_SCALE.

Definition borderOf (input : Input.t) : number :=
  parseIntOrDefault (Input.border input) DEFAULT_BORDER.

Definition eccOf (input : Input.t) : jsstring :=
  toUpperCase
    (match Input.ecc input with
     | Some e => e
     | None => DEFAULT_ERROR_CORRECTION
     end).

(** A numeric field fails when it is not an integer of the legal range. *)
Definition outside (lo hi : Z) (n : number) : bool :=
  match n with
  | Some z => negb ((lo <=? z)%Z && (z <=? hi)%Z)
  | None => true
  end.

Definition scaleFails (input : Input.t) : bool := outside 1 40 (scaleOf input).

Definition borderFails (input : Input.t) : bool := outside 0 20 (borderOf input).

Definition eccFails (input : Input.t) : bool :=
  negb (Set_has [js "L"; js "M"; js "Q"; js "H"] (eccOf input)).

(** ** The option contract in the words of the specification *)

Definition nonEmptyDigits (s : jsstring) : bool :=
  match s with
  | [] => false
  | _ :: _ => forallb isDigit s
  end.

(** The integer that a text spells in base 10, when the whole text is an
    optional sign followed by decimal digits; a fraction, hexadecimal
    notation or digits followed by anything else spell none. *)
Definition wholeInteger (s : jsstring) : option Z :=
  match s with
  | [] => None
  | c :: rest =>
      if c =? 45 then
        if nonEmptyDigits rest then Some (- digitsValue 0 rest)%Z else None
      else if c =? 43 then
        if nonEmptyDigits rest then Some (digitsValue 0 rest) else None
      else if nonEmptyDigits s then Some (digitsValue 0 s) else None
  end.

(** The number a raw numeric option stands for by the specification: the
    default when absent or blank, otherwise the integer the text spells, if
    it spells one. *)
Definition specNumber (raw : option jsstring) (fallback : Z) : number :=
  match raw with
  | None => Some fallback
  | Some s => if forallb isWhiteSpace s then Some fallback else wholeInteger s
  end.

Definition specScaleInvalid (input : Input.t) : bool :=
  outside 1 40 (specNumber (Input.scale input) 8).

Definition specBorderInvalid (input : Input.t) : bool :=
  outside 0 20 (specNumber (Input.border input) 4).

(** A raw numeric option that is absent, blank, or spells an integer. *)
Definition spellsInteger (raw : option jsstring) : bool :=
  match raw with
  | None => true
  | Some s =>
      forallb isWhiteSpace s
      || match wholeInteger s with Some _ => true | None => false end
  end.

(** The message of the first invalid field by the specification, the fields
    being taken in the order scale, border, error correction. *)
Definition specFirstFailure (input : Input.t) : option jsstring :=
  if specScaleInvalid input then Some scaleError
  else if specBorderInvalid input then Some borderError
  else if eccFails input then Some eccError
  else None.

(** The spellings of the four levels in either case. *)
Definition levelSpellings : list jsstring :=
  [js "l"; js "L"; js "m"; js "M"; js "q"; js "Q"; js "h"; js "H"].

(** ** Response bodies as they appear on the wire *)

Definition quoted (s : jsstring) : jsstring := dq ++ s ++ dq.

(** The JSON text of [{ "error": message }] for a message that needs no
    escaping. *)
Definition errorBody (message : jsstring) : jsstring :=
  js "{" ++ quoted (js "error") ++ js ":" ++ quoted message ++ js "}".

(** The JSON text of the service descriptor. *)
Definition healthBody : jsstring :=
  js "{" ++ quoted (js "service") ++ js ":" ++ quoted (js "icanhazqrcode")
  ++ js "," ++ quoted (js "endpoints") ++ js ":["
  ++ quoted (js "GET / (landing page with QR form + optional ad slot)") ++ js ","
  ++ quoted (js "GET /robots.txt") ++ js ","
  ++ quoted (js "GET /sitemap.xml") ++ js ","
  ++ quoted (js "GET /llms.txt") ++ js ","
  ++ quoted (js "GET /qr?data=<text>&scale=8&border=4&ecc=M") ++ js ","
  ++ quoted
       (js "POST /qr (text/plain or application/json {data, scale, border, ecc})")
  ++ js "]}".

(** ** Text classes *)

(** Text within the ASCII range, where a code unit is a byte. *)
Definition asciiOnly (s : jsstring) : bool := forallb (fun c => c <? 128) s.

(** A digit of lowercase hexadecimal notation. *)
Definition isLowerHex (c : N) : bool := isDigit c || ((97 <=? c) && (c <=? 102)).

(** ** Hexadecimal notation, read back *)

Definition hexDigitValue (c : N) : Z :=
  if isDigit c then (Z.of_N c - 48)%Z else (Z.of_N c - 87)%Z.

(** The number that a run of hexadecimal digits writes. *)
Definition readHex (s : jsstring) : Z :=
  fold_left (fun acc c => (16 * acc + hexDigitValue c)%Z) s 0%Z.

(** The one way of writing a number in lowercase hexadecimal: at least one
    digit, all of them lowercase, and no leading zero before another digit. *)
Definition canonicalHex (s : jsstring) : bool :=
  forallb isLowerHex s
  && match s with
     | [] => false
     | [_] => true
     | c :: _ => negb (c =? 48)
     end.

(** ** Sample deployments and requests *)

Definition sampleSvg : jsstring :=
  js "<svg xmlns=" ++ dq ++ js "http://www.w3.org/2000/svg" ++ dq ++ js "/>".

Definition sampleCodec : Codec := fun _ => Svg sampleSvg.

Definition overflowingCodec : Codec :=
  fun _ => Throws (js "code length overflow.").

Definition samplePageText : PageText :=
  {| uptoCanonical := js "<!doctype html><link rel=canonical href=";
     uptoOgUrl := js "/><meta property=og:url content=";
     uptoAdMeta := js "/>";
     uptoAdScript := js "<link rel=preconnect>";
     uptoAdMarkup := js "<style></style><body><aside>";
     uptoGetExample := js "</aside><div>GET ";
     uptoPostExample := js "/qr</div><div>POST ";
     pageRest := js "/qr</div></body>" |}.

Definition sampleWorld (codec : Codec) : World :=
  {| pageText := samplePageText; usageNotes := fun origin => origin;
     qrcode := codec |}.

Definition sampleUrl (path : jsstring) (params : list (jsstring * jsstring)) : URL :=
  {| protocol := js "https:"; host := js "icanhazqrcode.example";
     pathname := path; searchParams := params |}.

Definition getRequest (path : jsstring) (params : list (jsstring * jsstring))
  : Request :=
  {| method := js "GET"; url := sampleUrl path params;
     contentTypeHeader := None; requestText := []; requestJson := None |}.

Definition postJson (params : list (jsstring * jsstring)) (payload : JSValue)
  : Request :=
  {| method := js "POST"; url := sampleUrl (js "/qr") params;
     contentTypeHeader := Some (js "application/json");
     requestText := JSON_stringify payload; requestJson := Some payload |}.

Definition postText (params : list (jsstring * jsstring)) (text : jsstring)
  : Request :=
  {| method := js "POST"; url := sampleUrl (js "/qr") params;
     contentTypeHeader := Some (js "text/plain");
     requestText := text; requestJson := None |}.

(** The request of the precedence example: [scale=4] and [border=2] in the
    query, [scale: 10] in the body. *)
Definition precedenceRequest : Request :=
  postJson [(js "scale", js "4"); (js "border", js "2")]
    (JObject [ (js "data", JString (js "hello"));
               (js "scale", JNumber (NumInt 10)) ]).

(** A GET request whose scale is the text of a fraction. *)
Definition fractionalScaleRequest : Request :=
  getRequest (js "/qr") [(js "data", js "hi"); (js "scale", js "3.5")].

Definition healthRequest : Request := getRequest (js "/health") [].

Definition helloRequest : Request :=
  getRequest (js "/qr") [(js "data", js "hello")].

Definition overlongData : jsstring := repeat 97 2049.



(** The three ways of sending an empty payload. *)
Definition emptyQueryRequest : Request := getRequest (js "/qr") [(js "data", [])].

Definition emptyJsonRequest : Request :=
  postJson [] (JObject [(js "data", JString [])]).

Definition emptyTextRequest : Request := postText [] [].

Definition noInput : Input.t :=
  {| Input.scale := None; Input.border := None; Input.ecc := None |}.

Definition defaultOptions : Options.t :=
  {| Options.scale := Some 8%Z; Options.border := Some 4%Z;
     Options.ecc := js "M" |}.

(** Raw options of which every field fails, and of which all but the scale
    fail. *)
Definition allFailing : Input.t :=
  {| Input.scale := Some (js "0"); Input.border := Some (js "99");
     Input.ecc := Some (js "X") |}.

Definition borderAndEccFailing : Input.t :=
  {| Input.scale := Some (js "8"); Input.border := Some (js "-1");
     Input.ecc := Some (js "X") |}.

(** Raw options of which every field is invalid, the scale being a
    fraction. *)
Definition fractionalFailing : Input.t :=
  {| Input.scale := Some (js "3.5"); Input.border := Some (js "99");
     Input.ecc := Some (js "X") |}.

(** An SVG text with a letter beyond ASCII in its title, and a codec that
    delivers it. *)
Definition accentedSvg : jsstring :=
  js "<svg><title>caf" ++ [233] ++ js "</title></svg>".

Definition accentedCodec : Codec := fun _ => Svg accentedSvg.

(** How the tag that loads the AdSense library from its third-party host
    begins. *)
Definition adScriptOpening : jsstring :=
  js "<script async src=" ++ dq ++ adsenseScriptSrc.

Definition landingUrl : URL := sampleUrl (js "/") [].

(** A valid slot identifier next to a client identifier that is too short. *)
Definition slotOnlyEnv : Env :=
  {| ADSENSE_CLIENT := Some (js "ca-pub-12345");
     ADSENSE_SLOT := Some (js "1234567890") |}.

Definition noEnv : Env := {| ADSENSE_CLIENT := None; ADSENSE_SLOT := None |}.

(** A valid client identifier without any slot identifier. *)
Definition clientOnlyEnv : Env :=
  {| ADSENSE_CLIENT := Some (js "ca-pub-1234567890123456");
     ADSENSE_SLOT := None |}.

(** ** The route table *)

(** The method and path pairs that the router answers with something other
    than the not-found response. *)
Definition knownRoutes : list (jsstring * jsstring) :=
  [ (js "GET", js "/"); (js "GET", js "/health"); (js "GET", js "/robots.txt");
    (js "GET", js "/sitemap.xml"); (js "GET", js "/llms.txt");
    (js "GET", js "/qr"); (js "POST", js "/qr") ].

(** The documents answered without looking at the payload. *)
Definition staticResponses (w : World) (request : Request) (env : Env)
  : list Response :=
  [ landingPage (pageText w) (url request) env; healthResponse;
    robotsTxt (url request); sitemapXml (url request);
    llmsTxt (usageNotes w) (url request); notFound ].

(** A request with a method the router does not serve. *)
Definition deleteRequest : Request :=
  {| method := js "DELETE"; url := sampleUrl (js "/qr") [(js "data", js "hello")];
     contentTypeHeader := None; requestText := []; requestJson := None |}.

(** A POST that declares JSON and carries text that is no JSON. *)
Definition brokenJsonRequest : Request :=
  {| method := js "POST"; url := sampleUrl (js "/qr") [(js "scale", js "4")];
     contentTypeHeader := Some (js "application/json; charset=utf-8");
     requestText := js "{data:"; requestJson := None |}.

(** A JSON body whose [data] is a number, and one that is an array. *)
Definition numericDataRequest : Request :=
  postJson [] (JObject [(js "data", JNumber (NumInt 42))]).

Definition arrayBodyRequest : Request :=
  postJson [] (JArray [JString (js "hello")]).

(** An overlong payload sent with a scale that does not parse. *)
Definition overlongBadScaleRequest : Request :=
  postText [(js "scale", js "big")] overlongData.

(** A JSON request whose scale and border are numbers of the body, sent with
    different values in the query. *)
Definition numericBodyRequest : Request :=
  postJson [(js "scale", js "4"); (js "border", js "9")]
    (JObject [ (js "data", JString (js "hello"));
               (js "scale", JNumber (NumInt 12));
               (js "border", JNumber (NumInt 0)) ]).

(** The characters with a meaning in HTML markup. *)
Definition markupSpecial : list N := [34; 38; 39; 60; 62].

(** Both identifiers valid. *)
Definition fullAdEnv : Env :=
  {| ADSENSE_CLIENT := Some (js "ca-pub-1234567890123456");
     ADSENSE_SLOT := Some (js "1234567890") |}.

(** Every message the worker sends with status 400. *)
Definition errorMessages : list jsstring :=
  [ js "Missing required query parameter: data";
    js "Invalid JSON body";
    js "JSON body must be an object";
    js "Missing data in request body";
    js "scale must be an integer between 1 and 40";
    js "border must be an integer between 0 and 20";
    js "ecc must be one of: L, M, Q, H";
    js "Data too long. Max length is 2048 characters.";
    js "Unable to encode QR for the provided input and options" ].

Definition robotsRequest : Request := getRequest (js "/robots.txt") [].
Definition sitemapRequest : Request := getRequest (js "/sitemap.xml") [].

(** * Properties *)

(** ** The embedding at known values *)

(** Published FNV-1a test vectors. *)
Example simpleHash_empty : simpleHash [] = js "811c9dc5".
Proof. vm_compute; reflexivity. Qed.

Example simpleHash_a : simpleHash (js "a") = js "e40c292c".
Proof. vm_compute; reflexivity. Qed.

Example simpleHash_foobar : simpleHash (js "foobar") = js "bf9cf968".
Proof. vm_compute; reflexivity. Qed.

Example parseInt_values :
  Number_parseInt10 (js "40") = Some 40%Z
  /\ Number_parseInt10 (js " -3") = Some (-3)%Z
  /\ Number_parseInt10 (js "0x10") = Some 0%Z
  /\ Number_parseInt10 (js "abc") = None
  /\ Number_parseInt10 (js "-") = None.
Proof. repeat split; vm_compute; reflexivity. Qed.

Example encode_values :
  TextEncoder_encode (js "QR") = [81; 82]
  /\ TextEncoder_encode [233] = [195; 169]
  /\ TextEncoder_encode [8364] = [226; 130; 172]
  /\ TextEncoder_encode [55357; 56832] = [240; 159; 152; 128]
  /\ TextEncoder_encode [55357] = [239; 191; 189].
Proof. repeat split; vm_compute; reflexivity. Qed.

Example error_texts :
  scaleError = js "scale must be an integer between 1 and 40"
  /\ borderError = js "border must be an integer between 0 and 20"
  /\ dataTooLong = js "Data too long. Max length is 2048 characters."
  /\ body (badRequest eccError)
     = BodyText (errorBody (js "ecc must be one of: L, M, Q, H")).
Proof. repeat split; vm_compute; reflexivity. Qed.

Example notFound_response :
  status notFound = 404%Z
  /\ headers notFound = jsonHeaders
  /\ body notFound
     = BodyText
         (js "{" ++ quoted (js "error") ++ js ":" ++ quoted (js "Not Found")
          ++ js "," ++ quoted (js "hint") ++ js ":"
          ++ quoted
               (js "Use GET /qr?data=hello or POST /qr with raw text or JSON {"
                ++ backslash ++ dq ++ js "data" ++ backslash ++ dq ++ js ":"
                ++ backslash ++ dq ++ js "hello" ++ backslash ++ dq ++ js "}")
          ++ js "}").
Proof. repeat split; vm_compute; reflexivity. Qed.

(** ** Strings *)

Lemma jseqb_refl (a : jsstring) : jseqb a a = true.
Proof.
  induction a as [|x a IH]; simpl; [reflexivity|].
  now rewrite N.eqb_refl.
Qed.

Lemma jseqb_eq (a b : jsstring) : jseqb a b = true <-> a = b.
Proof.
  split; [|intros ->; apply jseqb_refl].
  revert b; induction a as [|x a IH]; intros [|y b]; simpl; try easy.
  rewrite andb_true_iff, N.eqb_eq.
  intros [-> H]; f_equal; auto.
Qed.

Lemma startsWith_app (p rest : jsstring) : startsWith p (p ++ rest) = true.
Proof.
  induction p as [|x p IH]; simpl; [reflexivity|].
  now rewrite N.eqb_refl.
Qed.

Lemma includes_startsWith (needle hay : jsstring) :
  startsWith needle hay = true -> includes needle hay = true.
Proof.
  destruct hay; simpl; intros ->; reflexivity.
Qed.

(** A string includes whatever it was assembled from. *)
Lemma includes_app (needle before after : jsstring) :
  includes needle (before ++ needle ++ after) = true.
Proof.
  induction before as [|x before IH]; simpl.
  - apply includes_startsWith, startsWith_app.
  - rewrite IH. apply orb_true_r.
Qed.

Lemma includes_head (needle after : jsstring) :
  includes needle (needle ++ after) = true.
Proof. apply (includes_app needle []). Qed.

Lemma includes_skip (needle before hay : jsstring) :
  includes needle hay = true -> includes needle (before ++ hay) = true.
Proof.
  intros H. induction before as [|x before IH]; simpl; [assumption|].
  rewrite IH. apply orb_true_r.
Qed.

Lemma startsWith_within (p hay after : jsstring) :
  startsWith p hay = true -> startsWith p (hay ++ after) = true.
Proof.
  revert hay; induction p as [|x p IH]; intros [|y hay]; simpl; try easy.
  rewrite !andb_true_iff. intros [-> H]. auto.
Qed.

Lemma includes_within (needle hay after : jsstring) :
  includes needle hay = true -> includes needle (hay ++ after) = true.
Proof.
  induction hay as [|y hay IH]; simpl.
  - rewrite orb_false_r. destruct needle; [|discriminate].
    intros _. destruct after; reflexivity.
  - rewrite !orb_true_iff. intros [H|H].
    + left. apply (startsWith_within needle (y :: hay) after H).
    + right. auto.
Qed.

(** Finds a piece in a string written as a chain of appended pieces. *)
Ltac find_piece :=
  repeat first [ apply includes_head | apply includes_skip ].

(** Finds a literal inside one of the literal pieces of such a chain. *)
Ltac find_in_piece :=
  repeat first
    [ apply includes_within; vm_compute; reflexivity
    | apply includes_skip ].

Lemma stripPrefix_app (p a rest : jsstring) :
  stripPrefix p a = Some rest -> a = p ++ rest.
Proof.
  revert a; induction p as [|x p IH]; intros [|y a]; simpl; try easy.
  - now intros [= ->].
  - now intros [= ->].
  - destruct (N.eqb_spec x y) as [->|]; [|discriminate].
    intros H. f_equal. now apply IH.
Qed.

(** ** Ad configuration sanitiser and landing page *)

Lemma safeAdClient_sound (value : option jsstring) (c : jsstring) :
  safeAdClient value = Some c ->
  value = Some c /\
  exists digits,
    c = js "ca-pub-" ++ digits /\ forallb isDigit digits = true /\
    (10 <= List.length digits <= 20)%nat.
Proof.
  unfold safeAdClient.
  destruct value as [v|]; simpl; [|discriminate].
  destruct v as [|x v]; simpl; [discriminate|].
  destruct (adClientPattern (x :: v)) eqn:P; [|discriminate].
  intros [= <-]. split; [reflexivity|].
  unfold adClientPattern in P.
  destruct (stripPrefix (js "ca-pub-") (x :: v)) as [rest|] eqn:S; [|discriminate].
  exists rest.
  unfold digitsBetween in P.
  rewrite !andb_true_iff, !Nat.leb_le in P.
  destruct P as [[D Lo] Hi].
  repeat split; try assumption.
  exact (stripPrefix_app _ _ _ S).
Qed.

Lemma safeAdSlot_sound (value : option jsstring) (s : jsstring) :
  safeAdSlot value = Some s ->
  value = Some s /\ forallb isDigit s = true /\ (5 <= List.length s <= 20)%nat.
Proof.
  unfold safeAdSlot.
  destruct value as [v|]; simpl; [|discriminate].
  destruct v as [|x v]; simpl; [discriminate|].
  destruct (adSlotPattern (x :: v)) eqn:P; [|discriminate].
  intros [= <-]. split; [reflexivity|].
  unfold adSlotPattern, digitsBetween in P.
  rewrite !andb_true_iff, !Nat.leb_le in P.
  tauto.
Qed.

Lemma truthy_safeAdClient (value : option jsstring) :
  truthy (safeAdClient value) = false -> safeAdClient value = None.
Proof.
  destruct (safeAdClient value) as [c|] eqn:E; [|reflexivity].
  apply safeAdClient_sound in E as [_ (digits & -> & _)]. discriminate.
Qed.

Lemma truthy_safeAdSlot (value : option jsstring) :
  truthy (safeAdSlot value) = false -> safeAdSlot value = None.
Proof.
  destruct (safeAdSlot value) as [s|] eqn:E; [|reflexivity].
  apply safeAdSlot_sound in E as (_ & _ & L).
  destruct s; simpl in *; [lia | discriminate].
Qed.

(** With an absent or invalid client identifier the page is, byte for byte,
    the page of a deployment without any ad configuration: no ad script, no
    account tag, the fallback card. *)
Lemma landingPage_without_client (text : PageText) (url : URL) (env : Env) :
  safeAdClient (ADSENSE_CLIENT env) = None ->
  landingPage text url env = landingPage text url noEnv /\
  landingPageHtml text url env =
    uptoCanonical text ++ originOf url ++ uptoOgUrl text ++ originOf url
    ++ uptoAdMeta text ++ uptoAdScript text
    ++ uptoAdMarkup text ++ fallbackAdMarkup
    ++ uptoGetExample text ++ originOf url ++ uptoPostExample text
    ++ originOf url ++ pageRest text.
Proof.
  intros H. unfold landingPage, landingPageHtml. rewrite H. simpl.
  split; reflexivity.
Qed.

(** Without a valid slot identifier the ad unit is replaced by the fallback
    card, whatever the client identifier is. *)
Lemma landingPage_without_slot (text : PageText) (url : URL) (env : Env) :
  safeAdSlot (ADSENSE_SLOT env) = None ->
  landingPage text url env =
  landingPage text url {| ADSENSE_CLIENT := ADSENSE_CLIENT env; ADSENSE_SLOT := None |}
  /\ includes fallbackAdMarkup (landingPageHtml text url env) = true.
Proof.
  intros H. unfold landingPage, landingPageHtml. rewrite H. simpl.
  rewrite andb_false_r. split; [reflexivity|].
  find_piece.
Qed.

(** The page of [clientOnlyEnv], piece by piece. *)
Lemma landingPageHtml_clientOnly (text : PageText) (url : URL) :
  landingPageHtml text url clientOnlyEnv =
    uptoCanonical text ++ originOf url ++ uptoOgUrl text ++ originOf url
    ++ uptoAdMeta text ++ adsenseMetaMarkup (js "ca-pub-1234567890123456")
    ++ uptoAdScript text ++ adsenseScriptMarkup (js "ca-pub-1234567890123456")
    ++ uptoAdMarkup text ++ fallbackAdMarkup
    ++ uptoGetExample text ++ originOf url ++ uptoPostExample text
    ++ originOf url ++ pageRest text.
Proof. reflexivity. Qed.

(** With a valid client identifier and no slot identifier the ad unit is
    replaced by the fallback card, yet the page carries the tag that loads
    the AdSense library, whatever the fixed text and the origin are. *)
Lemma landingPage_client_only (text : PageText) (url : URL) :
  includes fallbackAdMarkup (landingPageHtml text url clientOnlyEnv) = true
  /\ includes adScriptOpening (landingPageHtml text url clientOnlyEnv) = true
  /\ landingPageHtml text url clientOnlyEnv <> landingPageHtml text url noEnv.
Proof.
  rewrite landingPageHtml_clientOnly.
  split; [find_piece|]. split.
  - find_in_piece.
  - destruct (landingPage_without_client text url noEnv eq_refl) as [_ ->].
    intros H. apply (f_equal (@List.length N)) in H.
    rewrite !length_app in H. simpl in H. lia.
Qed.

(** C1, at a configuration with a valid client identifier and no slot
    identifier: the configuration is not enabled, and the page the code
    generates carries the third-party script tag, which the same page without
    any configuration does not, so the two pages differ. *)
Theorem partial_config_emits_ad_script :
  truthy (safeAdClient (ADSENSE_CLIENT clientOnlyEnv))
  && truthy (safeAdSlot (ADSENSE_SLOT clientOnlyEnv)) = false
  /\ includes adScriptOpening
       (landingPageHtml samplePageText landingUrl clientOnlyEnv) = true
  /\ includes adScriptOpening
       (landingPageHtml samplePageText landingUrl noEnv) = false
  /\ landingPageHtml samplePageText landingUrl clientOnlyEnv
     <> landingPageHtml samplePageText landingUrl noEnv.
Proof.
  split; [reflexivity|].
  destruct (landingPage_client_only samplePageText landingUrl) as (_ & Hs & Hd).
  split; [exact Hs|]. split; [vm_compute; reflexivity | exact Hd].
Qed.

(** The page of every configuration that is not enabled, piece by piece: the
    ad unit is the fallback card, which holds no script; the account tag and
    the loader script follow the client identifier alone, so that with an
    absent or invalid client identifier the page is the page of a deployment
    without any ad configuration. *)
Lemma landingPage_ad_fallback (text : PageText) (url : URL) (env : Env) :
  truthy (safeAdClient (ADSENSE_CLIENT env))
  && truthy (safeAdSlot (ADSENSE_SLOT env)) = false ->
  landingPageHtml text url env =
    uptoCanonical text ++ originOf url ++ uptoOgUrl text ++ originOf url
    ++ uptoAdMeta text
    ++ match safeAdClient (ADSENSE_CLIENT env) with
       | Some client => adsenseMetaMarkup client
       | None => []
       end
    ++ uptoAdScript text
    ++ match safeAdClient (ADSENSE_CLIENT env) with
       | Some client => adsenseScriptMarkup client
       | None => []
       end
    ++ uptoAdMarkup text ++ fallbackAdMarkup
    ++ uptoGetExample text ++ originOf url ++ uptoPostExample text
    ++ originOf url ++ pageRest text
  /\ includes (js "<script") fallbackAdMarkup = false
  /\ (safeAdClient (ADSENSE_CLIENT env) = None ->
      landingPage text url env = landingPage text url noEnv).
Proof.
  intros Hoff.
  split; [|split; [vm_compute; reflexivity|]].
  - unfold landingPageHtml. rewrite Hoff.
    destruct (safeAdClient (ADSENSE_CLIENT env)) as [client|] eqn:Hc;
      [|reflexivity].
    apply safeAdClient_sound in Hc as [_ (digits & -> & _)].
    reflexivity.
  - intros Hc. apply landingPage_without_client, Hc.
Qed.

(** ** Option normaliser *)

(** [parseOptions] read as a cascade over the three field verdicts. *)
Lemma parseOptions_cascade (input : Input.t) :
  parseOptions input =
  if scaleFails input then Invalid scaleError
  else if borderFails input then Invalid borderError
  else if eccFails input then Invalid eccError
  else Valid {| Options.scale := scaleOf input;
                Options.border := borderOf input;
                Options.ecc := eccOf input |}.
Proof.
  unfold parseOptions, scaleFails, borderFails, eccFails, scaleOf, borderOf,
    eccOf, outside, MAX_SCALE, MAX_BORDER.
  destruct (parseIntOrDefault (Input.scale input) DEFAULT_SCALE) as [s|];
    simpl; [|reflexivity].
  rewrite Z.gtb_ltb.
  destruct (Z.leb_spec s 0), (Z.ltb_spec 40 s), (Z.leb_spec 1 s),
    (Z.leb_spec s 40); simpl; try lia; try reflexivity.
  destruct (parseIntOrDefault (Input.border input) DEFAULT_BORDER) as [b|];
    simpl; [|reflexivity].
  rewrite Z.gtb_ltb.
  destruct (Z.ltb_spec b 0), (Z.ltb_spec 20 b), (Z.leb_spec 0 b),
    (Z.leb_spec b 20); simpl; try lia; reflexivity.
Qed.

(** What passes the normaliser is within the documented bounds. *)
Lemma parseOptions_valid_bounds (input : Input.t) (options : Options.t) :
  parseOptions input = Valid options ->
  (exists s, Options.scale options = Some s /\ (1 <= s <= 40)%Z) /\
  (exists b, Options.border options = Some b /\ (0 <= b <= 20)%Z) /\
  In (Options.ecc options) ALLOWED_ERROR_CORRECTION.
Proof.
  rewrite parseOptions_cascade.
  destruct (scaleFails input) eqn:S; [discriminate|].
  destruct (borderFails input) eqn:B; [discriminate|].
  destruct (eccFails input) eqn:E; [discriminate|].
  intros [= <-]; cbn [Options.scale Options.border Options.ecc].
  unfold scaleFails, outside in S. unfold borderFails, outside in B.
  destruct (scaleOf input) as [s|]; [|discriminate].
  destruct (borderOf input) as [b|]; [|discriminate].
  apply negb_false_iff, andb_true_iff in S as [S1 S2].
  apply negb_false_iff, andb_true_iff in B as [B1 B2].
  apply Z.leb_le in S1, S2, B1, B2.
  split; [exists s; split; [reflexivity | lia]|].
  split; [exists b; split; [reflexivity | lia]|].
  unfold eccFails, Set_has in E.
  apply negb_false_iff, existsb_exists in E as (x & Hin & Hx).
  apply jseqb_eq in Hx. now subst.
Qed.

(** A scale that is no integer from 1 to 40 is rejected with the message
    that names the field and its range, whatever the other fields are. *)
Lemma scale_rejected (input : Input.t) :
  scaleFails input = true ->
  parseOptions input = Invalid (js "scale must be an integer between 1 and 40").
Proof.
  intros H. rewrite parseOptions_cascade, H. reflexivity.
Qed.

Lemma border_rejected (input : Input.t) :
  scaleFails input = false ->
  borderFails input = true ->
  parseOptions input = Invalid (js "border must be an integer between 0 and 20").
Proof.
  intros Hs Hb. rewrite parseOptions_cascade, Hs, Hb. reflexivity.
Qed.

(** An absent or blank scale stands for the default 8. *)
Lemma scale_default (input : Input.t) :
  match Input.scale input with
  | None => True
  | Some s => forallb isWhiteSpace s = true
  end ->
  scaleOf input = Some 8%Z.
Proof.
  unfold scaleOf, parseIntOrDefault.
  destruct (Input.scale input) as [s|]; [|reflexivity].
  intros W.
  assert (T : trimStart s = []).
  { induction s as [|c s IH]; simpl in *; [reflexivity|].
    apply andb_true_iff in W as [-> W]. auto. }
  unfold trim. rewrite T. reflexivity.
Qed.

(** The decimal spelling of every scale from 1 to 40 is accepted with that
    very value. *)
Lemma scale_in_range_accepted (n : nat) :
  (1 <= n <= 40)%nat ->
  parseOptions
    {| Input.scale := Some (String_of_Z (Z.of_nat n)); Input.border := None;
       Input.ecc := None |}
  = Valid {| Options.scale := Some (Z.of_nat n); Options.border := Some 4%Z;
             Options.ecc := js "M" |}.
Proof.
  intros H.
  do 41 (destruct n as [|n]; [try lia; vm_compute; reflexivity|]).
  lia.
Qed.

(** ** Router and input extractor *)

Lemma fetch_get_qr (w : World) (request : Request) (env : Env) :
  method request = js "GET" ->
  pathname (url request) = js "/qr" ->
  fetch w request env = qrFromQuery (qrcode w) (url request).
Proof.
  intros Hm Hp. unfold fetch, routeIs. rewrite Hm, Hp. reflexivity.
Qed.

Lemma fetch_post_qr (w : World) (request : Request) (env : Env) :
  method request = js "POST" ->
  pathname (url request) = js "/qr" ->
  fetch w request env = qrFromBody (qrcode w) request (url request).
Proof.
  intros Hm Hp. unfold fetch, routeIs. rewrite Hm, Hp. reflexivity.
Qed.

Lemma fetch_get_health (w : World) (request : Request) (env : Env) :
  method request = js "GET" ->
  pathname (url request) = js "/health" ->
  fetch w request env = direct healthResponse.
Proof.
  intros Hm Hp. unfold fetch, routeIs. rewrite Hm, Hp. reflexivity.
Qed.

(** The code's field selection is the precedence rule. *)
Lemma numberOrStringField_prefers_body (payload : JSValue) (key : jsstring)
      (fromQuery : option jsstring) :
  numberOrStringField (getProperty payload key) fromQuery
  = preferBody (suppliedNumeric payload key) fromQuery.
Proof.
  unfold numberOrStringField, suppliedNumeric, preferBody.
  destruct (getProperty payload key) as [[]|]; reflexivity.
Qed.

Lemma stringField_prefers_body (payload : JSValue) (key : jsstring)
      (fromQuery : option jsstring) :
  stringField (getProperty payload key) fromQuery
  = preferBody (suppliedString payload key) fromQuery.
Proof.
  unfold stringField, suppliedString, preferBody.
  destruct (getProperty payload key) as [[]|]; reflexivity.
Qed.

Lemma preferBody_none (fromBody : option jsstring) :
  preferBody fromBody None = fromBody.
Proof. destruct fromBody; reflexivity. Qed.

(** Every encoding request is answered by settling what its extraction
    strategy yields. *)
Lemma fetch_extracted (w : World) (env : Env) (request : Request)
      (source : Source) (data : option jsstring) (input : Input.t) :
  Extracted request source data input ->
  fetch w request env = settle (qrcode w) source data input.
Proof.
  intros E. destruct E as [request Hm Hp | request payload Hm Hp Hj Hb Ho
                          | request Hm Hp Hj].
  - rewrite (fetch_get_qr w request env Hm Hp). reflexivity.
  - rewrite (fetch_post_qr w request env Hm Hp).
    unfold qrFromBody, qrFromBody_extract, settle.
    unfold declaresJson in Hj. rewrite Hj, Hb, Ho.
    rewrite !numberOrStringField_prefers_body, !stringField_prefers_body.
    rewrite preferBody_none. reflexivity.
  - rewrite (fetch_post_qr w request env Hm Hp).
    unfold qrFromBody, qrFromBody_extract, settle.
    unfold declaresJson in Hj. rewrite Hj. reflexivity.
Qed.

(** ** Response builder *)

Lemma buildQrResponse_long (codec : Codec) (data : jsstring) (options : Options.t) :
  (2049 <= List.length data)%nat ->
  buildQrResponse codec data options = direct (badRequest dataTooLong).
Proof.
  intros H. unfold buildQrResponse, MAX_DATA_LENGTH.
  rewrite Z.gtb_ltb. destruct (Z.ltb_spec 2048 (Z.of_nat (List.length data)));
    [reflexivity | lia].
Qed.

Lemma buildQrResponse_short (codec : Codec) (data : jsstring) (options : Options.t) :
  (List.length data <= 2048)%nat ->
  buildQrResponse codec data options =
  {| response :=
       match codec (codecCallFor data options) with
       | Throws _ => badRequest unableToEncode
       | Svg svg => imageResponse svg
       end;
     codecCalls := [codecCallFor data options] |}.
Proof.
  intros H. unfold buildQrResponse, MAX_DATA_LENGTH.
  rewrite Z.gtb_ltb. destruct (Z.ltb_spec 2048 (Z.of_nat (List.length data)));
    [lia|].
  fold (codecCallFor data options).
  destruct (codec (codecCallFor data options)); reflexivity.
Qed.

Lemma badRequest_status (message : jsstring) : status (badRequest message) = 400%Z.
Proof. reflexivity. Qed.

Lemma badRequest_headers (message : jsstring) :
  headers (badRequest message) = jsonHeaders.
Proof. reflexivity. Qed.



(** Whatever the request, either the codec is left alone or the response is
    the response builder's for some payload and options. *)
Lemma fetch_codec_use (w : World) (request : Request) (env : Env) :
  codecCalls (fetch w request env) = []
  \/ exists data options,
       fetch w request env = buildQrResponse (qrcode w) data options.
Proof.
  unfold fetch.
  repeat match goal with
         | |- context [if routeIs ?r ?m ?p then _ else _] =>
             destruct (routeIs r m p); [try (left; reflexivity)|]
         end.
  - unfold qrFromQuery.
    destruct (negb _); [left; reflexivity|].
    destruct (parseOptions _); [right; eauto | left; reflexivity].
  - unfold qrFromBody.
    destruct (qrFromBody_extract _ _) as [early|[data input]];
      [left; reflexivity|].
    destruct (negb _); [left; reflexivity|].
    destruct (parseOptions _); [right; eauto | left; reflexivity].
  - left; reflexivity.
Qed.

(** C7: whenever a request makes a codec call and that call fails, whatever
    the cause, the answer is status 400 with the one unable-to-encode
    message, and that call is the only one made. *)
Theorem codec_failure_is_generic (w : World) (request : Request) (env : Env)
        (call : CodecCall) (cause : jsstring) :
  In call (codecCalls (fetch w request env)) ->
  qrcode w call = Throws cause ->
  fetch w request env
  = {| response := badRequest unableToEncode; codecCalls := [call] |}
  /\ status (badRequest unableToEncode) = 400%Z
  /\ body (badRequest unableToEncode)
     = BodyText
         (errorBody (js "Unable to encode QR for the provided input and options")).
Proof.
  intros Hin Hfail.
  split; [|split; vm_compute; reflexivity].
  destruct (fetch_codec_use w request env) as [Hnone|(data & options & Hb)].
  - rewrite Hnone in Hin. destruct Hin.
  - rewrite Hb in *. clear Hb.
    destruct (Nat.le_gt_cases (List.length data) 2048) as [L|L].
    + rewrite buildQrResponse_short in * by exact L.
      simpl in Hin. destruct Hin as [<-|[]].
      rewrite Hfail. reflexivity.
    + rewrite buildQrResponse_long in Hin by exact L. destruct Hin.
Qed.

(** C10: a request to the encoding endpoint whose payload is the empty string
    is answered with status 400 and the missing-data message of its
    extraction strategy, without any codec call. *)
Theorem empty_payload_never_encoded (w : World) (env : Env) (request : Request)
        (source : Source) (input : Input.t) :
  Extracted request source (Some []) input ->
  fetch w request env = direct (badRequest (missingData source))
  /\ codecCalls (fetch w request env) = []
  /\ status (response (fetch w request env)) = 400%Z
  /\ body (response (fetch w request env))
     = BodyText (errorBody (missingData source)).
Proof.
  intros E. rewrite (fetch_extracted w env request source _ input E).
  unfold settle. simpl.
  repeat split. destruct source; vm_compute; reflexivity.
Qed.

(** C5: for a POST to /qr that declares JSON and carries an object, the raw
    options handed to the normaliser are the body's where the body supplies
    them and the query's otherwise; with [scale=4] in the query and
    [scale: 10] in the body the codec is called with cell size 10, the border
    that only the query gives being kept. *)
Theorem body_options_take_priority (w : World) (env : Env) (request : Request)
        (payload : JSValue) :
  method request = js "POST" ->
  pathname (url request) = js "/qr" ->
  declaresJson request = true ->
  requestJson request = Some payload ->
  notAnObject payload = false ->
  fetch w request env
  = settle (qrcode w) FromJsonBody (suppliedString payload (js "data"))
      {| Input.scale :=
           preferBody (suppliedNumeric payload (js "scale"))
             (queryOption request (js "scale"));
         Input.border :=
           preferBody (suppliedNumeric payload (js "border"))
             (queryOption request (js "border"));
         Input.ecc :=
           preferBody (suppliedString payload (js "ecc"))
             (queryOption request (js "ecc")) |}
  /\ forall codec : Codec,
       codecCalls (fetch (sampleWorld codec) precedenceRequest env)
       = [ {| callEcc := js "M"; callData := js "hello";
              cellSize := Some 10%Z; margin := Some 2%Z |} ].
Proof.
  intros Hm Hp Hj Hb Ho. split.
  - apply fetch_extracted. now apply ExtractedJson.
  - intros codec.
    rewrite (fetch_post_qr (sampleWorld codec) precedenceRequest env
               eq_refl eq_refl).
    unfold qrFromBody.
    change (qrFromBody_extract _ _)
      with (@inr Response _
              (Some (js "hello"),
               {| Input.scale := Some (js "10"); Input.border := Some (js "2");
                  Input.ecc := None |})).
    cbv beta iota.
    change (negb (truthy (Some (js "hello")))) with false. cbv iota.
    change (parseOptions _)
      with (Valid {| Options.scale := Some 10%Z; Options.border := Some 2%Z;
                     Options.ecc := js "M" |}).
    cbv iota. rewrite buildQrResponse_short by (vm_compute; lia).
    reflexivity.
Qed.

(** C3: GET /health is answered with status 200 and the JSON text that names
    the service and lists its endpoints; its headers are the pair that the
    [json] helper gives every JSON response ([cache-control: no-store]
    included), nothing being added for this endpoint. *)
Theorem health_response (w : World) (request : Request) (env : Env) :
  method request = js "GET" ->
  pathname (url request) = js "/health" ->
  fetch w request env = direct healthResponse
  /\ status healthResponse = 200%Z
  /\ body healthResponse = BodyText healthBody
  /\ (forall (value : JSValue) (status : option Z),
        headers healthResponse = headers (json value status))
  /\ headers healthResponse
     = [ (js "content-type", js "application/json; charset=utf-8");
         (js "cache-control", js "no-store") ].
Proof.
  intros Hm Hp. split; [now apply fetch_get_health|].
  repeat split; vm_compute; reflexivity.
Qed.

(** C2, at the scale texts [3.5], [12abc] and [1e3]: none of them spells an
    integer, and each is accepted with the value of its leading digits; the
    GET request with [scale=3.5] reaches the codec with cell size 3. *)
Theorem parseOptions_accepts_non_integer_scale :
  parseOptions
    {| Input.scale := Some (js "3.5"); Input.border := None; Input.ecc := None |}
  = Valid {| Options.scale := Some 3%Z; Options.border := Some 4%Z;
             Options.ecc := js "M" |}
  /\ parseOptions
       {| Input.scale := Some (js "12abc"); Input.border := None;
          Input.ecc := None |}
     = Valid {| Options.scale := Some 12%Z; Options.border := Some 4%Z;
                Options.ecc := js "M" |}
  /\ parseOptions
       {| Input.scale := Some (js "1e3"); Input.border := None;
          Input.ecc := None |}
     = Valid {| Options.scale := Some 1%Z; Options.border := Some 4%Z;
                Options.ecc := js "M" |}
  /\ forall (w : World) (env : Env),
       codecCalls (fetch w fractionalScaleRequest env)
       = [ {| callEcc := js "M"; callData := js "hi"; cellSize := Some 3%Z;
              margin := Some 4%Z |} ].
Proof.
  split; [vm_compute; reflexivity|].
  split; [vm_compute; reflexivity|].
  split; [vm_compute; reflexivity|].
  intros w env.
  rewrite (fetch_extracted w env fractionalScaleRequest FromQuery _ _
             (ExtractedQuery fractionalScaleRequest eq_refl eq_refl)).
  unfold settle.
  change (queryOption fractionalScaleRequest (js "data")) with (Some (js "hi")).
  change (parseOptions (queryOptions fractionalScaleRequest))
    with (Valid {| Options.scale := Some 3%Z; Options.border := Some 4%Z;
                   Options.ecc := js "M" |}).
  cbv beta iota. change (negb (truthy (Some (js "hi")))) with false.
  cbv iota. rewrite buildQrResponse_short by (vm_compute; lia).
  reflexivity.
Qed.

(** ** Error-correction level *)

Lemma toUpperCaseUnit_letter (c u : N) :
  toUpperCaseUnit c = u -> 65 <= u <= 90 -> c = u \/ c = u + 32.
Proof.
  unfold toUpperCaseUnit.
  destruct (N.leb_spec 97 c), (N.leb_spec c 122); simpl; lia.
Qed.

Lemma allowed_level_spelling (e : jsstring) :
  Set_has [js "L"; js "M"; js "Q"; js "H"] (toUpperCase e) = true ->
  In e levelSpellings.
Proof.
  unfold Set_has. intros H.
  apply existsb_exists in H as (x & Hin & Hx).
  apply jseqb_eq in Hx.
  destruct e as [|c [|d e]]; simpl in Hx.
  - subst x. simpl in Hin. intuition discriminate.
  - simpl in Hin.
    destruct Hin as [<-|[<-|[<-|[<-|[]]]]]; injection Hx as Hx;
      apply toUpperCaseUnit_letter in Hx; try lia;
      destruct Hx as [->| ->]; simpl; tauto.
  - subst x. simpl in Hin. intuition discriminate.
Qed.

Lemma level_spelling_allowed (e : jsstring) :
  In e levelSpellings ->
  Set_has [js "L"; js "M"; js "Q"; js "H"] (toUpperCase e) = true
  /\ In (toUpperCase e) ALLOWED_ERROR_CORRECTION.
Proof.
  simpl. intros H.
  repeat (destruct H as [<-|H]; [split; [reflexivity | simpl; tauto]|]).
  destruct H.
Qed.

(** C4: with scale and border in order, an absent ecc gives the level [M];
    each of the eight spellings [l L m M q Q h H] is accepted as its upper
    case; the empty string is rejected with the ecc message, not defaulted;
    and so is every other text, [X] among them. *)
Theorem ecc_normalisation (scale border : option jsstring) :
  scaleFails
    {| Input.scale := scale; Input.border := border; Input.ecc := None |} = false ->
  borderFails
    {| Input.scale := scale; Input.border := border; Input.ecc := None |} = false ->
  parseOptions
    {| Input.scale := scale; Input.border := border; Input.ecc := None |}
  = Valid {| Options.scale := parseIntOrDefault scale DEFAULT_SCALE;
             Options.border := parseIntOrDefault border DEFAULT_BORDER;
             Options.ecc := js "M" |}
  /\ (forall e : jsstring,
        In e levelSpellings ->
        parseOptions
          {| Input.scale := scale; Input.border := border; Input.ecc := Some e |}
        = Valid {| Options.scale := parseIntOrDefault scale DEFAULT_SCALE;
                   Options.border := parseIntOrDefault border DEFAULT_BORDER;
                   Options.ecc := toUpperCase e |}
        /\ In (toUpperCase e) ALLOWED_ERROR_CORRECTION)
  /\ parseOptions
       {| Input.scale := scale; Input.border := border; Input.ecc := Some [] |}
     = Invalid eccError
  /\ parseOptions
       {| Input.scale := scale; Input.border := border;
          Input.ecc := Some (js "X") |}
     = Invalid eccError
  /\ (forall e : jsstring,
        ~ In e levelSpellings ->
        parseOptions
          {| Input.scale := scale; Input.border := border; Input.ecc := Some e |}
        = Invalid eccError).
Proof.
  intros Hs Hb.
  assert (Other : forall e : jsstring,
             ~ In e levelSpellings ->
             parseOptions
               {| Input.scale := scale; Input.border := border;
                  Input.ecc := Some e |}
             = Invalid eccError).
  { intros e Hn. rewrite parseOptions_cascade.
    change (scaleFails _) with
      (scaleFails {| Input.scale := scale; Input.border := border;
                     Input.ecc := None |}).
    change (borderFails _) with
      (borderFails {| Input.scale := scale; Input.border := border;
                      Input.ecc := None |}).
    rewrite Hs, Hb. unfold eccFails, eccOf. cbn [Input.ecc].
    destruct (Set_has _ (toUpperCase e)) eqn:E; [|reflexivity].
    apply allowed_level_spelling in E. contradiction. }
  split; [|split; [|split; [|split]]].
  - rewrite parseOptions_cascade, Hs, Hb. reflexivity.
  - intros e He. destruct (level_spelling_allowed e He) as [Hset Hin].
    split; [|exact Hin].
    rewrite parseOptions_cascade.
    change (scaleFails _) with
      (scaleFails {| Input.scale := scale; Input.border := border;
                     Input.ecc := None |}).
    change (borderFails _) with
      (borderFails {| Input.scale := scale; Input.border := border;
                      Input.ecc := None |}).
    rewrite Hs, Hb. unfold eccFails, eccOf. cbn [Input.ecc].
    rewrite Hset. reflexivity.
  - apply Other. simpl. intuition discriminate.
  - apply Other. simpl. intuition discriminate.
  - exact Other.
Qed.

(** C9, at the raw options scale [3.5], border [99], ecc [X], all three
    invalid: the first invalid field is the scale, whose text spells no
    integer, and the message the code surfaces is that of the border, the
    scale having been read as 3. *)
Theorem parseOptions_skips_fractional_scale :
  specFirstFailure fractionalFailing
  = Some (js "scale must be an integer between 1 and 40")
  /\ parseOptions fractionalFailing
     = Invalid (js "border must be an integer between 0 and 20")
  /\ parseIntOrDefault (Input.scale fractionalFailing) DEFAULT_SCALE = Some 3%Z.
Proof. repeat split; vm_compute; reflexivity. Qed.

(** Where the scale and the border spell integers, out of range or not, the
    order of the checks is the order of the fields. *)
Example first_failure_at_integer_texts :
  parseOptions allFailing = Invalid scaleError
  /\ specFirstFailure allFailing = Some scaleError
  /\ parseOptions borderAndEccFailing = Invalid borderError
  /\ specFirstFailure borderAndEccFailing = Some borderError.
Proof. repeat split; vm_compute; reflexivity. Qed.

(** ** Entity tag *)

Section Hash.
Local Open Scope Z_scope.

Lemma toInt32_mod (z : Z) : toInt32 z mod 2 ^ 32 = z mod 2 ^ 32.
Proof.
  unfold toInt32.
  rewrite Zminus_mod, Zmod_mod, <- Zminus_mod.
  f_equal. lia.
Qed.

Lemma lxor_mod (a b : Z) :
  Z.lxor a b mod 2 ^ 32 = Z.lxor (a mod 2 ^ 32) (b mod 2 ^ 32).
Proof.
  rewrite <- !Z.land_ones by lia.
  apply Z.bits_inj'. intros n Hn.
  rewrite !Z.land_spec, !Z.lxor_spec, !Z.land_spec.
  destruct (Z.testbit a n), (Z.testbit b n), (Z.testbit (Z.ones 32) n);
    reflexivity.
Qed.

(** One round of the loop, read modulo [2^32], is one round of FNV-1a. *)
Lemma hashStep_fnv (hash : Z) (code : N) :
  Z.of_N code < 2 ^ 32 ->
  toUint32 (hashStep hash code)
  = (Z.lxor (toUint32 hash) (Z.of_N code) * 16777619) mod 2 ^ 32.
Proof.
  intros Hc. unfold hashStep, Math_imul, bitXor, toUint32.
  rewrite toInt32_mod, lxor_mod, !toInt32_mod.
  rewrite (Z.mod_small (Z.of_N code)) by lia.
  rewrite Zmult_mod, Zmod_mod, <- Zmult_mod.
  reflexivity.
Qed.

Lemma hashLoop_fnv (value : jsstring) (hash acc : Z) :
  Forall (fun c => Z.of_N c < 2 ^ 32) value ->
  toUint32 hash = acc ->
  toUint32 (fold_left hashStep value hash)
  = fold_left (fun h b => (Z.lxor h (Z.of_N b) * 16777619) mod 2 ^ 32)
      value acc.
Proof.
  intros Hv. revert hash acc.
  induction Hv as [|c value Hc Hv IH]; intros hash acc Hacc; simpl.
  - exact Hacc.
  - apply IH. rewrite hashStep_fnv by exact Hc. now rewrite Hacc.
Qed.

(** On text whose code units are below [2^32], as all are, the unsigned
    value that [simpleHash] prints is the FNV-1a hash of the code units
    taken as bytes. *)
Lemma simpleHash_fnv (value : jsstring) :
  Forall (fun c => Z.of_N c < 2 ^ 32) value ->
  simpleHash value = toString16 (fnv1a32 value).
Proof.
  intros Hv. unfold simpleHash, fnv1a32.
  now rewrite (hashLoop_fnv value 2166136261 2166136261 Hv).
Qed.

Lemma hexDigit_lower (d : N) : (d < 16)%N -> isLowerHex (hexDigit d) = true.
Proof.
  intros H. unfold isLowerHex, isDigit, hexDigit.
  destruct (N.ltb_spec d 10).
  - apply orb_true_iff. left.
    apply andb_true_iff. split; apply N.leb_le; lia.
  - apply orb_true_iff. right.
    apply andb_true_iff. split; apply N.leb_le; lia.
Qed.

Lemma hexDigitsOf_lower (fuel : nat) (n : Z) (acc : jsstring) :
  forallb isLowerHex acc = true ->
  forallb isLowerHex (hexDigitsOf fuel n acc) = true.
Proof.
  revert n acc. induction fuel as [|fuel IH]; intros n acc Hacc; simpl.
  - exact Hacc.
  - assert (Hd : forallb isLowerHex (hexDigit (Z.to_N (n mod 16)) :: acc) = true).
    { simpl. rewrite Hacc, hexDigit_lower; [reflexivity|].
      pose proof (Z.mod_pos_bound n 16 ltac:(lia)). lia. }
    destruct (n / 16 =? 0); [exact Hd | apply IH, Hd].
Qed.

Lemma toString16_lower (n : Z) : forallb isLowerHex (toString16 n) = true.
Proof. apply hexDigitsOf_lower. reflexivity. Qed.
End Hash.

(** ASCII text is its own UTF-8 encoding. *)
Lemma TextEncoder_encode_ascii (s : jsstring) :
  asciiOnly s = true -> TextEncoder_encode s = s.
Proof.
  unfold asciiOnly.
  induction s as [|c s IH]; [reflexivity|].
  intros H. cbn [forallb] in H.
  apply andb_true_iff in H as [Hc Hs]. apply N.ltb_lt in Hc.
  assert (Hhigh : isHighSurrogate c = false).
  { unfold isHighSurrogate. destruct (N.leb_spec 55296 c); [lia | reflexivity]. }
  assert (Hlow : isLowSurrogate c = false).
  { unfold isLowSurrogate. destruct (N.leb_spec 56320 c); [lia | reflexivity]. }
  assert (Hone : utf8Of c = [c]).
  { unfold utf8Of. destruct (N.ltb_spec c 128); [reflexivity | lia]. }
  cbn [TextEncoder_encode]. rewrite Hhigh, Hlow, Hone, (IH Hs). reflexivity.
Qed.

Lemma asciiOnly_units (s : jsstring) :
  asciiOnly s = true -> Forall (fun c => (Z.of_N c < 2 ^ 32)%Z) s.
Proof.
  unfold asciiOnly. rewrite forallb_forall, Forall_forall.
  intros H c Hc. apply H, N.ltb_lt in Hc. lia.
Qed.

(** Beyond ASCII, which the markup of the codec never leaves, the code units
    hashed and the bytes sent are different sequences. *)
Example simpleHash_beyond_ascii :
  simpleHash [233] = js "6c0b6c44"
  /\ toString16 (fnv1a32 (TextEncoder_encode [233])) <> simpleHash [233].
Proof. split; [vm_compute; reflexivity | vm_compute; discriminate]. Qed.

(** A request whose codec call succeeds is answered with the image response
    for the SVG text delivered. *)
Lemma codec_success (w : World) (request : Request) (env : Env)
      (call : CodecCall) (svg : jsstring) :
  In call (codecCalls (fetch w request env)) ->
  qrcode w call = Svg svg ->
  fetch w request env = {| response := imageResponse svg; codecCalls := [call] |}.
Proof.
  intros Hin Hok.
  destruct (fetch_codec_use w request env) as [Hnone|(data & options & Hb)].
  - rewrite Hnone in Hin. destruct Hin.
  - rewrite Hb in *. clear Hb.
    destruct (Nat.le_gt_cases (List.length data) 2048) as [L|L].
    + rewrite buildQrResponse_short in * by exact L.
      simpl in Hin. destruct Hin as [<-|[]].
      rewrite Hok. reflexivity.
    + rewrite buildQrResponse_long in Hin by exact L. destruct Hin.
Qed.

Lemma hexDigitValue_hexDigit (d : N) :
  (d < 16)%N -> hexDigitValue (hexDigit d) = Z.of_N d.
Proof.
  intros H. unfold hexDigitValue, hexDigit, isDigit.
  destruct (N.ltb_spec d 10).
  - destruct (N.leb_spec 48 (48 + d)), (N.leb_spec (48 + d) 57);
      cbn [andb]; lia.
  - destruct (N.leb_spec 48 (87 + d)), (N.leb_spec (87 + d) 57);
      cbn [andb]; lia.
Qed.

Lemma hexDigit_zero (d : N) : (d < 16)%N -> hexDigit d = 48 -> d = 0.
Proof.
  unfold hexDigit. destruct (N.ltb_spec d 10); lia.
Qed.

Lemma hexDigitsOf_app (fuel : nat) (n : Z) (acc : jsstring) :
  hexDigitsOf fuel n acc = hexDigitsOf fuel n [] ++ acc.
Proof.
  revert n acc. induction fuel as [|fuel IH]; intros n acc; [reflexivity|].
  cbn [hexDigitsOf]. cbv zeta.
  destruct (n / 16 =? 0)%Z; [reflexivity|].
  rewrite IH. rewrite (IH _ [_]). now rewrite <- app_assoc.
Qed.

Lemma readHex_snoc (s : jsstring) (c : N) :
  readHex (s ++ [c]) = (16 * readHex s + hexDigitValue c)%Z.
Proof.
  unfold readHex. rewrite fold_left_app. reflexivity.
Qed.

(** Reading back what [toString(16)] wrote gives the number. *)
Lemma hexDigitsOf_value (fuel : nat) (n : Z) :
  (0 <= n < 16 ^ Z.of_nat fuel)%Z ->
  readHex (hexDigitsOf fuel n []) = n.
Proof.
  revert n. induction fuel as [|fuel IH]; intros n Hn.
  - cbn [hexDigitsOf]. change (16 ^ Z.of_nat 0)%Z with 1%Z in Hn.
    unfold readHex. cbn [fold_left]. lia.
  - cbn [hexDigitsOf]. cbv zeta.
    pose proof (Z.mod_pos_bound n 16 ltac:(lia)) as Hm.
    pose proof (Z.div_mod n 16 ltac:(lia)) as Hdm.
    assert (Hlast : hexDigitValue (hexDigit (Z.to_N (n mod 16))) = (n mod 16)%Z).
    { rewrite hexDigitValue_hexDigit by lia. lia. }
    destruct (Z.eqb_spec (n / 16) 0) as [E|E].
    + change [hexDigit (Z.to_N (n mod 16))]
        with ([] ++ [hexDigit (Z.to_N (n mod 16))]).
      rewrite readHex_snoc, Hlast. unfold readHex. cbn [fold_left]. lia.
    + rewrite hexDigitsOf_app, readHex_snoc, Hlast, IH; [lia|].
      rewrite Nat2Z.inj_succ, Z.pow_succ_r in Hn by lia.
      split; [apply Z.div_pos; lia|].
      apply Z.div_lt_upper_bound; lia.
Qed.

(** What [toString(16)] wrote does not begin with a zero, the number zero
    apart. *)
Lemma hexDigitsOf_head (fuel : nat) (n : Z) :
  (0 < n < 16 ^ Z.of_nat fuel)%Z ->
  exists c rest, hexDigitsOf fuel n [] = c :: rest /\ c <> 48.
Proof.
  revert n. induction fuel as [|fuel IH]; intros n Hn.
  - change (16 ^ Z.of_nat 0)%Z with 1%Z in Hn. lia.
  - cbn [hexDigitsOf]. cbv zeta.
    pose proof (Z.mod_pos_bound n 16 ltac:(lia)) as Hm.
    pose proof (Z.div_mod n 16 ltac:(lia)) as Hdm.
    destruct (Z.eqb_spec (n / 16) 0) as [E|E].
    + eexists. eexists. split; [reflexivity|].
      intros H. apply hexDigit_zero in H; lia.
    + rewrite hexDigitsOf_app.
      destruct (IH (n / 16)%Z) as (c & rest & -> & Hc).
      * rewrite Nat2Z.inj_succ, Z.pow_succ_r in Hn by lia.
        assert (0 <= n / 16)%Z by (apply Z.div_pos; lia).
        split; [lia|]. apply Z.div_lt_upper_bound; lia.
      * exists c. eexists. split; [reflexivity | exact Hc].
Qed.

Lemma hex_fuel (n : Z) :
  (0 <= n)%Z -> (n < 16 ^ Z.of_nat (S (Z.to_nat (Z.log2 n))))%Z.
Proof.
  intros Hn.
  rewrite Nat2Z.inj_succ, Z2Nat.id by apply Z.log2_nonneg.
  destruct (Z.eq_dec n 0) as [->|Hz]; [reflexivity|].
  pose proof (Z.log2_spec n ltac:(lia)) as [_ Hlt].
  eapply Z.lt_le_trans; [exact Hlt|].
  apply Z.pow_le_mono_l. pose proof (Z.log2_nonneg n). lia.
Qed.

(** [toString(16)] writes a number in the one canonical way, and the digits
    read back as the number. *)
Lemma toString16_canonical (n : Z) :
  (0 <= n)%Z ->
  canonicalHex (toString16 n) = true /\ readHex (toString16 n) = n.
Proof.
  intros Hn. split.
  - unfold canonicalHex. rewrite toString16_lower. cbn [andb].
    destruct (Z.eq_dec n 0) as [->|Hz]; [reflexivity|].
    unfold toString16.
    destruct (hexDigitsOf_head (S (Z.to_nat (Z.log2 n))) n) as (c & rest & -> & Hc).
    { split; [lia | apply hex_fuel; lia]. }
    destruct rest; [reflexivity|].
    apply negb_true_iff, N.eqb_neq, Hc.
  - unfold toString16. apply hexDigitsOf_value.
    split; [lia | apply hex_fuel; lia].
Qed.

Lemma code_units_fit (s : jsstring) :
  Forall (fun c => c < 65536) s -> Forall (fun c => (Z.of_N c < 2 ^ 32)%Z) s.
Proof.
  intros H. eapply Forall_impl; [|exact H]. cbv beta. intros c Hc.
  change (2 ^ 32)%Z with 4294967296%Z. lia.
Qed.

Lemma fnv1a32_nonneg (bytes : list N) : (0 <= fnv1a32 bytes)%Z.
Proof.
  unfold fnv1a32.
  assert (H : forall (l : list N) (h : Z),
             (0 <= h)%Z ->
             (0 <= fold_left
                     (fun h b => (Z.lxor h (Z.of_N b) * 16777619) mod 2 ^ 32)
                     l h)%Z).
  { induction l as [|b l IH]; intros h Hh; [exact Hh|].
    cbn [fold_left]. apply IH. apply Z.mod_pos_bound. reflexivity. }
  apply H. lia.
Qed.

(** C8, amended: the image response to a request whose codec call delivered
    an SVG text carries as entity tag the weak marker [W/] around the one
    lowercase hexadecimal writing of the 32-bit FNV-1a hash of the UTF-16
    code units of that text; the body is the UTF-8 encoding of the text, so
    that the tag is the hash of the byte content whenever the text is ASCII.
    Nothing of the request enters the tag. *)
Theorem etag_is_fnv1a_of_text (w : World) (request : Request) (env : Env)
        (call : CodecCall) (svg : jsstring) :
  In call (codecCalls (fetch w request env)) ->
  qrcode w call = Svg svg ->
  Forall (fun c => c < 65536) svg ->
  exists tag : jsstring,
    status (response (fetch w request env)) = 200%Z
    /\ body (response (fetch w request env)) = BodyBytes (TextEncoder_encode svg)
    /\ getHeader (js "etag") (headers (response (fetch w request env)))
       = Some (js "W/" ++ quoted tag)
    /\ canonicalHex tag = true
    /\ readHex tag = fnv1a32 svg
    /\ (asciiOnly svg = true -> readHex tag = fnv1a32 (TextEncoder_encode svg)).
Proof.
  intros Hin Hok Hunits.
  rewrite (codec_success w request env call svg Hin Hok).
  exists (simpleHash svg). cbn [response].
  unfold imageResponse. cbv zeta. cbn [status body headers].
  rewrite (simpleHash_fnv svg (code_units_fit svg Hunits)).
  destruct (toString16_canonical (fnv1a32 svg) (fnv1a32_nonneg svg))
    as [Hcanon Hvalue].
  split; [reflexivity|]. split; [reflexivity|]. split; [reflexivity|].
  split; [exact Hcanon|]. split; [exact Hvalue|].
  intros Hascii. now rewrite (TextEncoder_encode_ascii svg Hascii).
Qed.

(** C8 as stated fails for an SVG text with a letter beyond ASCII: the body
    holds two bytes for the letter, the tag is the hash of the code units,
    and the hash of the bytes of the body is another number. *)
Lemma etag_of_accented_text :
  body (response (fetch (sampleWorld accentedCodec) helloRequest noEnv))
  = BodyBytes (TextEncoder_encode accentedSvg)
  /\ getHeader (js "etag")
       (headers (response (fetch (sampleWorld accentedCodec) helloRequest noEnv)))
     = Some (js "W/" ++ quoted (js "32835d7c"))
  /\ readHex (js "32835d7c") = 847469948%Z
  /\ fnv1a32 (TextEncoder_encode accentedSvg) = 3278661833%Z
  /\ readHex (js "32835d7c") <> fnv1a32 (TextEncoder_encode accentedSvg).
Proof.
  split; [vm_compute; reflexivity|]. split; [vm_compute; reflexivity|].
  split; [vm_compute; reflexivity|]. split; [vm_compute; reflexivity|].
  vm_compute. discriminate.
Qed.

(** * The theorems at sample requests *)

Lemma landingPage_ad_fallback_witness :
  truthy (safeAdClient (ADSENSE_CLIENT slotOnlyEnv))
  && truthy (safeAdSlot (ADSENSE_SLOT slotOnlyEnv)) = false
  /\ safeAdSlot (ADSENSE_SLOT slotOnlyEnv) = Some (js "1234567890")
  /\ landingPage samplePageText landingUrl slotOnlyEnv
     = landingPage samplePageText landingUrl noEnv.
Proof.
  split; [reflexivity|]. split; [reflexivity|].
  destruct (landingPage_ad_fallback samplePageText landingUrl slotOnlyEnv
              eq_refl) as (_ & _ & Hsame).
  exact (Hsame eq_refl).
Defined.

Lemma health_response_witness :
  method healthRequest = js "GET"
  /\ pathname (url healthRequest) = js "/health"
  /\ fetch (sampleWorld sampleCodec) healthRequest noEnv = direct healthResponse
  /\ body healthResponse = BodyText healthBody.
Proof.
  split; [reflexivity|]. split; [reflexivity|].
  pose proof (health_response (sampleWorld sampleCodec) healthRequest noEnv
                eq_refl eq_refl) as (Hf & _ & Hb & _).
  split; [exact Hf | exact Hb].
Defined.

Lemma ecc_normalisation_witness :
  scaleFails noInput = false
  /\ borderFails noInput = false
  /\ parseOptions noInput = Valid defaultOptions
  /\ parseOptions
       {| Input.scale := None; Input.border := None; Input.ecc := Some (js "q") |}
     = Valid {| Options.scale := Some 8%Z; Options.border := Some 4%Z;
                Options.ecc := js "Q" |}
  /\ parseOptions
       {| Input.scale := None; Input.border := None; Input.ecc := Some [] |}
     = Invalid eccError.
Proof.
  split; [reflexivity|]. split; [reflexivity|].
  pose proof (ecc_normalisation None None eq_refl eq_refl)
    as (Habsent & Hspelt & Hempty & _).
  split; [exact Habsent|]. split; [|exact Hempty].
  apply (Hspelt (js "q")). simpl. tauto.
Defined.

Lemma body_options_take_priority_witness :
  method precedenceRequest = js "POST"
  /\ pathname (url precedenceRequest) = js "/qr"
  /\ declaresJson precedenceRequest = true
  /\ notAnObject
       (JObject [ (js "data", JString (js "hello"));
                  (js "scale", JNumber (NumInt 10)) ]) = false
  /\ fetch (sampleWorld sampleCodec) precedenceRequest noEnv
     = settle sampleCodec FromJsonBody (Some (js "hello"))
         {| Input.scale := Some (js "10"); Input.border := Some (js "2");
            Input.ecc := None |}.
Proof.
  split; [reflexivity|]. split; [reflexivity|].
  split; [reflexivity|]. split; [reflexivity|].
  exact (proj1 (body_options_take_priority (sampleWorld sampleCodec) noEnv
                  precedenceRequest _ eq_refl eq_refl eq_refl eq_refl eq_refl)).
Defined.


Lemma codec_failure_is_generic_witness :
  In (codecCallFor (js "hello") defaultOptions)
     (codecCalls (fetch (sampleWorld overflowingCodec) helloRequest noEnv))
  /\ overflowingCodec (codecCallFor (js "hello") defaultOptions)
     = Throws (js "code length overflow.")
  /\ fetch (sampleWorld overflowingCodec) helloRequest noEnv
     = {| response := badRequest unableToEncode;
          codecCalls := [codecCallFor (js "hello") defaultOptions] |}.
Proof.
  assert (Hin : In (codecCallFor (js "hello") defaultOptions)
                   (codecCalls
                      (fetch (sampleWorld overflowingCodec) helloRequest noEnv)))
    by (vm_compute; left; reflexivity).
  split; [exact Hin|]. split; [reflexivity|].
  exact (proj1 (codec_failure_is_generic (sampleWorld overflowingCodec)
                  helloRequest noEnv _ (js "code length overflow.") Hin eq_refl)).
Defined.

Lemma etag_is_fnv1a_of_text_witness :
  In (codecCallFor (js "hello") defaultOptions)
     (codecCalls (fetch (sampleWorld sampleCodec) helloRequest noEnv))
  /\ sampleCodec (codecCallFor (js "hello") defaultOptions) = Svg sampleSvg
  /\ Forall (fun c => c < 65536) sampleSvg
  /\ exists tag : jsstring,
       status (response (fetch (sampleWorld sampleCodec) helloRequest noEnv))
       = 200%Z
       /\ body (response (fetch (sampleWorld sampleCodec) helloRequest noEnv))
          = BodyBytes (TextEncoder_encode sampleSvg)
       /\ getHeader (js "etag")
            (headers
               (response (fetch (sampleWorld sampleCodec) helloRequest noEnv)))
          = Some (js "W/" ++ quoted tag)
       /\ canonicalHex tag = true
       /\ readHex tag = fnv1a32 sampleSvg
       /\ (asciiOnly sampleSvg = true ->
           readHex tag = fnv1a32 (TextEncoder_encode sampleSvg)).
Proof.
  assert (Hin : In (codecCallFor (js "hello") defaultOptions)
                   (codecCalls
                      (fetch (sampleWorld sampleCodec) helloRequest noEnv)))
    by (vm_compute; left; reflexivity).
  assert (Hunits : Forall (fun c => c < 65536) sampleSvg)
    by (repeat constructor).
  split; [exact Hin|]. split; [reflexivity|]. split; [exact Hunits|].
  exact (etag_is_fnv1a_of_text (sampleWorld sampleCodec) helloRequest noEnv _
           sampleSvg Hin eq_refl Hunits).
Defined.

Lemma empty_payload_never_encoded_witness :
  Extracted emptyQueryRequest FromQuery (Some []) noInput
  /\ fetch (sampleWorld sampleCodec) emptyQueryRequest noEnv
     = direct (badRequest (js "Missing required query parameter: data"))
  /\ Extracted emptyJsonRequest FromJsonBody (Some []) noInput
  /\ fetch (sampleWorld sampleCodec) emptyJsonRequest noEnv
     = direct (badRequest (js "Missing data in request body"))
  /\ Extracted emptyTextRequest FromRawBody (Some []) noInput
  /\ fetch (sampleWorld sampleCodec) emptyTextRequest noEnv
     = direct (badRequest (js "Missing data in request body")).
Proof.
  assert (Eq : Extracted emptyQueryRequest FromQuery (Some []) noInput)
    by exact (ExtractedQuery emptyQueryRequest eq_refl eq_refl).
  assert (Ej : Extracted emptyJsonRequest FromJsonBody (Some []) noInput)
    by exact (ExtractedJson emptyJsonRequest
                (JObject [(js "data", JString [])])
                eq_refl eq_refl eq_refl eq_refl eq_refl).
  assert (Er : Extracted emptyTextRequest FromRawBody (Some []) noInput)
    by exact (ExtractedRaw emptyTextRequest eq_refl eq_refl eq_refl).
  split; [exact Eq|].
  split;
    [exact (proj1 (empty_payload_never_encoded (sampleWorld sampleCodec) noEnv
                     emptyQueryRequest FromQuery noInput Eq))|].
  split; [exact Ej|].
  split;
    [exact (proj1 (empty_payload_never_encoded (sampleWorld sampleCodec) noEnv
                     emptyJsonRequest FromJsonBody noInput Ej))|].
  split; [exact Er|].
  exact (proj1 (empty_payload_never_encoded (sampleWorld sampleCodec) noEnv
                  emptyTextRequest FromRawBody noInput Er)).
Defined.

(** * Further properties of the worker *)

(** ** Router *)

Lemma routeIs_true (request : Request) (m path : jsstring) :
  routeIs request m path = true <->
  method request = m /\ pathname (url request) = path.
Proof.
  unfold routeIs. rewrite andb_true_iff, !jseqb_eq. reflexivity.
Qed.

(** Splits [fetch] along its chain of route tests. *)
Ltac fetch_routes :=
  unfold fetch;
  repeat match goal with
         | |- context [if routeIs ?r ?m ?p then _ else _] =>
             let R := fresh "R" in destruct (routeIs r m p) eqn:R
         end.

(** The response builder either refuses an overlong payload or makes its one
    codec call. *)
Lemma buildQrResponse_outcome (codec : Codec) (data : jsstring)
      (options : Options.t) :
  buildQrResponse codec data options = direct (badRequest dataTooLong)
  \/ ((List.length data <= 2048)%nat
      /\ buildQrResponse codec data options =
         {| response :=
              match codec (codecCallFor data options) with
              | Throws _ => badRequest unableToEncode
              | Svg svg => imageResponse svg
              end;
            codecCalls := [codecCallFor data options] |}).
Proof.
  destruct (Nat.le_gt_cases (List.length data) 2048) as [L|L].
  - right. split; [exact L | now apply buildQrResponse_short].
  - left. now apply buildQrResponse_long.
Qed.

(** Every answer of the worker is a static document, a JSON error, or the
    result of exactly one codec call made for a non-empty payload of at most
    2048 code units with options that passed the normaliser, on /qr. *)
Lemma fetch_outcome (w : World) (request : Request) (env : Env) :
  (exists r : Response,
     fetch w request env = direct r
     /\ (In r (staticResponses w request env)
         \/ exists message, r = badRequest message))
  \/ (exists (data : jsstring) (input : Input.t) (options : Options.t),
        data <> []
        /\ (List.length data <= 2048)%nat
        /\ parseOptions input = Valid options
        /\ pathname (url request) = js "/qr"
        /\ (method request = js "GET" \/ method request = js "POST")
        /\ fetch w request env =
           {| response :=
                match qrcode w (codecCallFor data options) with
                | Throws _ => badRequest unableToEncode
                | Svg svg => imageResponse svg
                end;
              codecCalls := [codecCallFor data options] |}).
Proof.
  assert (Static : forall r,
             In r (staticResponses w request env) ->
             (exists r0 : Response,
                direct r = direct r0
                /\ (In r0 (staticResponses w request env)
                    \/ exists message, r0 = badRequest message))).
  { intros r Hr. exists r. split; [reflexivity | left; exact Hr]. }
  assert (Bad : forall message,
             (exists r0 : Response,
                direct (badRequest message) = direct r0
                /\ (In r0 (staticResponses w request env)
                    \/ exists message0, r0 = badRequest message0))).
  { intros message. exists (badRequest message).
    split; [reflexivity | right; eauto]. }
  fetch_routes.
  - left. apply Static. simpl. tauto.
  - left. apply Static. simpl. tauto.
  - left. apply Static. simpl. tauto.
  - left. apply Static. simpl. tauto.
  - left. apply Static. simpl. tauto.
  - apply routeIs_true in R4 as [Hm Hp].
    unfold qrFromQuery.
    destruct (searchParams_get (searchParams (url request)) (js "data"))
      as [[|c data]|]; cbn [truthy negb bang]; try (left; apply Bad).
    destruct (parseOptions _) as [options|error] eqn:V; [|left; apply Bad].
    destruct (buildQrResponse_outcome (qrcode w) (c :: data) options)
      as [->|[L ->]]; [left; apply Bad|].
    right. exists (c :: data). eexists. exists options.
    repeat split; try eassumption; try discriminate. now left.
  - apply routeIs_true in R5 as [Hm Hp].
    unfold qrFromBody.
    destruct (qrFromBody_extract request (url request))
      as [early|[[[|c data]|] input]] eqn:E.
    + unfold qrFromBody_extract in E.
      destruct (includes _ _); [|discriminate].
      destruct (requestJson request) as [body|];
        [|injection E as <-; left; apply Bad].
      destruct (notAnObject body); [|discriminate].
      injection E as <-; left; apply Bad.
    + cbn [truthy negb]. left; apply Bad.
    + cbn [truthy negb bang].
      destruct (parseOptions input) as [options|error] eqn:V;
        [|left; apply Bad].
      destruct (buildQrResponse_outcome (qrcode w) (c :: data) options)
        as [->|[L ->]]; [left; apply Bad|].
      right. exists (c :: data), input, options.
      repeat split; try eassumption; try discriminate. now right.
    + cbn [truthy negb]. left; apply Bad.
  - left. apply Static. simpl. tauto.
Qed.

Lemma buildQrResponse_status (codec : Codec) (data : jsstring)
      (options : Options.t) :
  status (response (buildQrResponse codec data options)) = 200%Z
  \/ status (response (buildQrResponse codec data options)) = 400%Z.
Proof.
  destruct (buildQrResponse_outcome codec data options) as [->|[_ ->]].
  - right. reflexivity.
  - cbn [response]. destruct (codec _); [left | right]; reflexivity.
Qed.

Lemma qrFromQuery_status (codec : Codec) (url : URL) :
  status (response (qrFromQuery codec url)) = 200%Z
  \/ status (response (qrFromQuery codec url)) = 400%Z.
Proof.
  unfold qrFromQuery.
  destruct (negb _); [right; reflexivity|].
  destruct (parseOptions _); [|right; reflexivity].
  apply buildQrResponse_status.
Qed.

Lemma qrFromBody_status (codec : Codec) (request : Request) (url : URL) :
  status (response (qrFromBody codec request url)) = 200%Z
  \/ status (response (qrFromBody codec request url)) = 400%Z.
Proof.
  unfold qrFromBody.
  destruct (qrFromBody_extract request url) as [early|[data input]] eqn:E.
  - right. unfold qrFromBody_extract in E.
    destruct (includes _ _); [|discriminate].
    destruct (requestJson request) as [body|]; [|now injection E as <-].
    destruct (notAnObject body); [|discriminate].
    now injection E as <-.
  - destruct (negb _); [right; reflexivity|].
    destruct (parseOptions _); [|right; reflexivity].
    apply buildQrResponse_status.
Qed.

(** X1: a request is answered with the not-found response exactly when its
    method and path are not in the route table; every listed route answers
    with status 200 or 400. *)
Theorem not_found_iff_unmatched (w : World) (request : Request) (env : Env) :
  (~ In (method request, pathname (url request)) knownRoutes ->
   fetch w request env = direct notFound)
  /\ (In (method request, pathname (url request)) knownRoutes ->
      status (response (fetch w request env)) = 200%Z
      \/ status (response (fetch w request env)) = 400%Z)
  /\ (status (response (fetch w request env)) = 404%Z <->
      ~ In (method request, pathname (url request)) knownRoutes).
Proof.
  assert (Listed : In (method request, pathname (url request)) knownRoutes ->
                   status (response (fetch w request env)) = 200%Z
                   \/ status (response (fetch w request env)) = 400%Z).
  { intros Hin. fetch_routes; try (left; reflexivity).
    - apply qrFromQuery_status.
    - apply qrFromBody_status.
    - exfalso. simpl in Hin.
      repeat match goal with
             | H : routeIs _ _ _ = false |- _ =>
                 apply not_true_iff_false in H; rewrite routeIs_true in H
             end.
      repeat (destruct Hin as [Hin|Hin];
              [injection Hin as Hm Hp; symmetry in Hm, Hp; tauto|]).
      destruct Hin. }
  assert (Unlisted : ~ In (method request, pathname (url request)) knownRoutes ->
                     fetch w request env = direct notFound).
  { intros Hout. fetch_routes; try reflexivity; exfalso; apply Hout;
      match goal with
      | H : routeIs _ _ _ = true |- _ =>
          apply routeIs_true in H as [Hm Hp]; rewrite Hm, Hp
      end; simpl; tauto. }
  split; [exact Unlisted|]. split; [exact Listed|].
  split.
  - intros H404 Hin. destruct (Listed Hin) as [H|H]; rewrite H in H404;
      discriminate.
  - intros Hout. rewrite (Unlisted Hout). reflexivity.
Qed.

(** X2: every response of the worker has status 200, 400 or 404 and carries
    a content type and a cache-control header; whenever the status is not
    200 the response is a JSON text sent with [no-store]. *)
Theorem every_response_well_formed (w : World) (request : Request) (env : Env) :
  let r := response (fetch w request env) in
  (status r = 200%Z \/ status r = 400%Z \/ status r = 404%Z)
  /\ (exists contentType, getHeader (js "content-type") (headers r) = Some contentType)
  /\ (exists directive, getHeader (js "cache-control") (headers r) = Some directive)
  /\ (status r <> 200%Z ->
      headers r = jsonHeaders /\ exists text, body r = BodyText text).
Proof.
  cbv zeta.
  destruct (fetch_outcome w request env) as [Hdirect|Hcodec].
  - destruct Hdirect as (r & E & Hr). rewrite E. cbn [response direct].
    destruct Hr as [Hr|(message & ->)].
    + simpl in Hr.
      destruct Hr as [<-|[<-|[<-|[<-|[<-|[<-|[]]]]]]];
        (split; [cbn; tauto|]);
        (split; [eexists; reflexivity|]);
        (split; [eexists; reflexivity|]);
        intros H; try (exfalso; apply H; reflexivity).
      split; [reflexivity | eexists; reflexivity].
    + split; [cbn; tauto|].
      split; [eexists; reflexivity|].
      split; [eexists; reflexivity|].
      intros _. split; [reflexivity | eexists; reflexivity].
  - destruct Hcodec as (data & input & options & _ & _ & _ & _ & _ & E).
    rewrite E. cbn [response].
    destruct (qrcode w _).
    + split; [cbn; tauto|].
      split; [eexists; reflexivity|].
      split; [eexists; reflexivity|].
      intros H; exfalso; apply H; reflexivity.
    + split; [cbn; tauto|].
      split; [eexists; reflexivity|].
      split; [eexists; reflexivity|].
      intros _. split; [reflexivity | eexists; reflexivity].
Qed.

(** X3: the codec is called at most once per request, and only for a GET or
    a POST to /qr. *)
Theorem codec_called_once_on_qr (w : World) (request : Request) (env : Env) :
  (List.length (codecCalls (fetch w request env)) <= 1)%nat
  /\ (codecCalls (fetch w request env) <> [] ->
      pathname (url request) = js "/qr"
      /\ (method request = js "GET" \/ method request = js "POST")).
Proof.
  destruct (fetch_outcome w request env)
    as [(r & -> & _)|(data & input & options & _ & _ & _ & Hp & Hm & ->)];
    cbn [codecCalls direct List.length].
  - split; [lia | intros H; now elim H].
  - split; [lia | intros _; split; assumption].
Qed.

(** X4: whatever reaches the codec satisfies the contract of an encoding
    request: a non-empty payload of at most 2048 code units, a cell size
    from 1 to 40, a margin from 0 to 20 and one of the four levels. *)
Theorem codec_call_within_contract (w : World) (request : Request) (env : Env)
        (call : CodecCall) :
  In call (codecCalls (fetch w request env)) ->
  (1 <= List.length (callData call) <= 2048)%nat
  /\ (exists s, cellSize call = Some s /\ (1 <= s <= 40)%Z)
  /\ (exists b, margin call = Some b /\ (0 <= b <= 20)%Z)
  /\ In (callEcc call) [js "L"; js "M"; js "Q"; js "H"].
Proof.
  intros Hin.
  destruct (fetch_outcome w request env)
    as [(r & E & _)|(data & input & options & Hd & L & V & _ & _ & E)];
    rewrite E in Hin; cbn [codecCalls direct] in Hin.
  - destruct Hin.
  - destruct Hin as [<-|[]]. cbn [codecCallFor callData cellSize margin callEcc].
    destruct (parseOptions_valid_bounds input options V) as (Hs & Hb & He).
    split; [|auto].
    destruct data; [now elim Hd | simpl in *; lia].
Qed.

(** ** Input extractor *)

(** X5: a POST to /qr that declares JSON is answered with status 400 and no
    codec call when the body does not parse ([Invalid JSON body]) and when it
    parses to [null], a boolean, a number or a string ([JSON body must be an
    object]), whatever the query parameters are. *)
Theorem malformed_json_body_rejected (w : World) (env : Env) (request : Request) :
  method request = js "POST" ->
  pathname (url request) = js "/qr" ->
  declaresJson request = true ->
  (requestJson request = None ->
   fetch w request env = direct (badRequest (js "Invalid JSON body")))
  /\ (forall body : JSValue,
        requestJson request = Some body ->
        (forall items, body <> JArray items) ->
        (forall fields, body <> JObject fields) ->
        fetch w request env
        = direct (badRequest (js "JSON body must be an object"))).
Proof.
  intros Hm Hp Hj. rewrite (fetch_post_qr w request env Hm Hp).
  unfold qrFromBody, qrFromBody_extract. unfold declaresJson in Hj. rewrite Hj.
  split.
  - intros ->. reflexivity.
  - intros body -> Harr Hobj.
    destruct body as [|b|n|s|items|fields];
      [reflexivity | reflexivity | reflexivity | reflexivity
      | now elim (Harr items) | now elim (Hobj fields)].
Qed.

(** X6: a JSON body that is an object or an array but has no string-typed
    [data] field (the field is missing, or is a number, or the body is an
    array) is answered with [Missing data in request body] and no codec
    call. *)
Theorem payload_must_be_a_string (w : World) (env : Env) (request : Request)
        (payload : JSValue) :
  method request = js "POST" ->
  pathname (url request) = js "/qr" ->
  declaresJson request = true ->
  requestJson request = Some payload ->
  notAnObject payload = false ->
  (forall s, getProperty payload (js "data") <> Some (JString s)) ->
  fetch w request env = direct (badRequest (js "Missing data in request body")).
Proof.
  intros Hm Hp Hj Hb Ho Hd.
  rewrite (fetch_extracted w env request FromJsonBody _ _
             (ExtractedJson request payload Hm Hp Hj Hb Ho)).
  unfold settle, suppliedString.
  destruct (getProperty payload (js "data")) as [[|b|n|s|items|fields]|];
    [reflexivity | reflexivity | reflexivity | now elim (Hd s)
    | reflexivity | reflexivity | reflexivity].
Qed.

(** X7: the payload is looked at before the options and the options before
    the length: without a payload the missing-data message is given even when
    the options are invalid, and invalid options are reported, without any
    codec call, even when the payload exceeds the length limit. *)
Theorem validation_order (w : World) (env : Env) (request : Request)
        (source : Source) (data : option jsstring) (input : Input.t) :
  Extracted request source data input ->
  (truthy data = false ->
   fetch w request env = direct (badRequest (missingData source)))
  /\ (forall message : jsstring,
        truthy data = true ->
        parseOptions input = Invalid message ->
        fetch w request env = direct (badRequest message)).
Proof.
  intros E. rewrite (fetch_extracted w env request source data input E).
  unfold settle. split.
  - intros ->. reflexivity.
  - intros message -> ->. reflexivity.
Qed.

(** ** Numeric options *)

Lemma isWhiteSpace_cases (c : N) :
  isWhiteSpace c = true ->
  (9 <= c <= 13 \/ c = 32 \/ c = 160 \/ c = 5760 \/ 8192 <= c <= 8202
   \/ c = 8232 \/ c = 8233 \/ c = 8239 \/ c = 8287 \/ c = 12288 \/ c = 65279).
Proof.
  unfold isWhiteSpace.
  rewrite !orb_true_iff, !andb_true_iff, !N.eqb_eq, !N.leb_le. tauto.
Qed.

Lemma digit_not_space (c : N) : isDigit c = true -> isWhiteSpace c = false.
Proof.
  unfold isDigit. rewrite andb_true_iff, !N.leb_le. intros H.
  destruct (isWhiteSpace c) eqn:W; [|reflexivity].
  apply isWhiteSpace_cases in W. lia.
Qed.

Lemma trimStart_blank (s : jsstring) :
  forallb isWhiteSpace s = true -> trimStart s = [].
Proof.
  induction s as [|c s IH]; [reflexivity|].
  cbn [forallb trimStart]. rewrite andb_true_iff. intros [-> W]. auto.
Qed.

Lemma trimStart_is_blank (s : jsstring) :
  trimStart s = [] -> forallb isWhiteSpace s = true.
Proof.
  induction s as [|c s IH]; [reflexivity|].
  cbn [forallb trimStart].
  destruct (isWhiteSpace c); [intros H; now rewrite IH | discriminate].
Qed.

Lemma trimStart_solid (c : N) (s : jsstring) :
  isWhiteSpace c = false -> trimStart (c :: s) = c :: s.
Proof. intros W. cbn [trimStart]. now rewrite W. Qed.

Lemma trimStart_head (s : jsstring) :
  trimStart s = []
  \/ exists c t, trimStart s = c :: t /\ isWhiteSpace c = false.
Proof.
  induction s as [|c s IH]; [now left|].
  cbn [trimStart]. destruct (isWhiteSpace c) eqn:W; [exact IH|].
  right. eauto.
Qed.

(** The blank test of [parseIntOrDefault]: [trim] leaves nothing exactly of
    the strings made of white space. *)
Lemma trim_blank (s : jsstring) :
  jseqb (trim s) [] = forallb isWhiteSpace s.
Proof.
  unfold trim, trimEnd.
  destruct (forallb isWhiteSpace s) eqn:W.
  - rewrite (trimStart_blank s W). reflexivity.
  - destruct (trimStart_head s) as [E|(c & t & E & Hc)].
    + apply trimStart_is_blank in E. congruence.
    + rewrite E.
      destruct (trimStart (rev (c :: t))) as [|x xs] eqn:T.
      * apply trimStart_is_blank in T.
        rewrite forallb_forall in T.
        specialize (T c). rewrite <- in_rev in T.
        rewrite T in Hc by (now left). discriminate.
      * destruct (rev (x :: xs)) eqn:R; [|reflexivity].
        apply (f_equal (@List.length N)) in R.
        rewrite length_rev in R. discriminate.
Qed.

Lemma takeDigits_app (ds rest : jsstring) :
  forallb isDigit ds = true ->
  match rest with [] => True | c :: _ => isDigit c = false end ->
  takeDigits (ds ++ rest) = ds.
Proof.
  intros D R. induction ds as [|d ds IH].
  - destruct rest as [|c rest]; [reflexivity|].
    cbn [app takeDigits]. now rewrite R.
  - cbn [forallb] in D. apply andb_true_iff in D as [Hd D].
    cbn [app takeDigits]. rewrite Hd. now rewrite IH.
Qed.

Lemma digit_values (c : N) :
  isDigit c = true ->
  c = 48 \/ c = 49 \/ c = 50 \/ c = 51 \/ c = 52 \/ c = 53 \/ c = 54
  \/ c = 55 \/ c = 56 \/ c = 57.
Proof.
  unfold isDigit. rewrite andb_true_iff, !N.leb_le. lia.
Qed.

(** [parseInt] on a run of digits followed by anything that is not a digit:
    the value of the run. *)
Lemma parseInt_digits (ds rest : jsstring) :
  ds <> [] ->
  forallb isDigit ds = true ->
  match rest with [] => True | c :: _ => isDigit c = false end ->
  Number_parseInt10 (ds ++ rest) = Some (digitsValue 0 ds).
Proof.
  intros Hne D R.
  destruct ds as [|d ds]; [now elim Hne|].
  pose proof (takeDigits_app (d :: ds) rest D R) as T.
  cbn [forallb] in D. apply andb_true_iff in D as [Hd D].
  unfold Number_parseInt10.
  cbn [app] in *. rewrite (trimStart_solid d _ (digit_not_space d Hd)).
  destruct (digit_values d Hd)
    as [E|[E|[E|[E|[E|[E|[E|[E|[E|E]]]]]]]]]; subst d;
    cbv beta iota zeta; rewrite T; now rewrite Z.mul_1_l.
Qed.

(** The same behind a minus sign. *)
Lemma parseInt_minus_digits (ds rest : jsstring) :
  ds <> [] ->
  forallb isDigit ds = true ->
  match rest with [] => True | c :: _ => isDigit c = false end ->
  Number_parseInt10 (45 :: ds ++ rest) = Some (- digitsValue 0 ds)%Z.
Proof.
  intros Hne D R.
  pose proof (takeDigits_app ds rest D R) as T.
  unfold Number_parseInt10.
  rewrite (trimStart_solid 45 _ eq_refl).
  cbv beta iota. rewrite T.
  destruct ds as [|d ds]; [now elim Hne|].
  f_equal; lia.
Qed.

Lemma digitsOf_app (fuel : nat) (n : Z) (acc : jsstring) :
  digitsOf fuel n acc = digitsOf fuel n [] ++ acc.
Proof.
  revert n acc. induction fuel as [|fuel IH]; intros n acc; [reflexivity|].
  cbn [digitsOf]. cbv zeta.
  destruct (n / 10 =? 0)%Z; [reflexivity|].
  rewrite IH. rewrite (IH _ [_]). now rewrite <- app_assoc.
Qed.

Lemma digitsValue_app (acc : Z) (x y : jsstring) :
  digitsValue acc (x ++ y) = digitsValue (digitsValue acc x) y.
Proof.
  revert acc. induction x as [|c x IH]; intros acc; [reflexivity|].
  cbn [app digitsValue]. apply IH.
Qed.

Lemma digitsOf_digits (fuel : nat) (n : Z) :
  forallb isDigit (digitsOf fuel n []) = true.
Proof.
  revert n. induction fuel as [|fuel IH]; intros n; [reflexivity|].
  cbn [digitsOf]. cbv zeta.
  assert (Hd : isDigit (48 + Z.to_N (n mod 10)) = true).
  { unfold isDigit. pose proof (Z.mod_pos_bound n 10 ltac:(lia)).
    apply andb_true_iff. split; apply N.leb_le; lia. }
  destruct (n / 10 =? 0)%Z.
  - cbn [forallb]. now rewrite Hd.
  - rewrite digitsOf_app, forallb_app, IH. cbn [forallb]. now rewrite Hd.
Qed.

Lemma digitsOf_nonempty (fuel : nat) (n : Z) : digitsOf (S fuel) n [] <> [].
Proof.
  cbn [digitsOf]. cbv zeta.
  destruct (n / 10 =? 0)%Z; [discriminate|].
  rewrite digitsOf_app. intros H. apply app_eq_nil in H as [_ H]. discriminate.
Qed.

Lemma digitsOf_value (fuel : nat) (n : Z) :
  (0 <= n < 10 ^ Z.of_nat fuel)%Z ->
  digitsValue 0 (digitsOf fuel n []) = n.
Proof.
  revert n. induction fuel as [|fuel IH]; intros n Hn.
  - cbn [digitsOf digitsValue]. change (10 ^ Z.of_nat 0)%Z with 1%Z in Hn. lia.
  - cbn [digitsOf]. cbv zeta.
    pose proof (Z.mod_pos_bound n 10 ltac:(lia)) as Hm.
    pose proof (Z.div_mod n 10 ltac:(lia)) as Hdm.
    assert (Hlast : (Z.of_N (48 + Z.to_N (n mod 10)) - 48 = n mod 10)%Z) by lia.
    destruct (Z.eqb_spec (n / 10) 0) as [E|E].
    + cbn [digitsValue]. lia.
    + rewrite digitsOf_app, digitsValue_app, IH.
      * cbn [digitsValue]. lia.
      * rewrite Nat2Z.inj_succ, Z.pow_succ_r in Hn by lia.
        split; [apply Z.div_pos; lia|].
        apply Z.div_lt_upper_bound; lia.
Qed.

Lemma decimal_fuel (n : Z) :
  (0 <= n)%Z -> (n < 10 ^ Z.of_nat (S (Z.to_nat (Z.log2 n))))%Z.
Proof.
  intros Hn.
  rewrite Nat2Z.inj_succ, Z2Nat.id by apply Z.log2_nonneg.
  destruct (Z.eq_dec n 0) as [->|Hz]; [reflexivity|].
  pose proof (Z.log2_spec n ltac:(lia)) as [_ Hlt].
  eapply Z.lt_le_trans; [exact Hlt|].
  apply Z.pow_le_mono_l. pose proof (Z.log2_nonneg n). lia.
Qed.

(** [String] followed by [parseInt] gives the integer back. *)
Lemma parseInt_String_of_Z (z : Z) : Number_parseInt10 (String_of_Z z) = Some z.
Proof.
  unfold String_of_Z.
  destruct (Z.ltb_spec z 0) as [Hneg|Hpos].
  - rewrite <- (app_nil_r (digitsOf _ _ _)).
    rewrite parseInt_minus_digits.
    + rewrite digitsOf_value by (split; [lia | apply decimal_fuel; lia]).
      f_equal. lia.
    + apply digitsOf_nonempty.
    + apply digitsOf_digits.
    + exact I.
  - rewrite <- (app_nil_r (digitsOf _ _ _)).
    rewrite parseInt_digits.
    + now rewrite digitsOf_value by (split; [lia | apply decimal_fuel; lia]).
    + apply digitsOf_nonempty.
    + apply digitsOf_digits.
    + exact I.
Qed.

Lemma String_of_Z_not_blank (z : Z) :
  forallb isWhiteSpace (String_of_Z z) = false.
Proof.
  unfold String_of_Z.
  destruct (z <? 0)%Z; [reflexivity|].
  pose proof (digitsOf_nonempty (Z.to_nat (Z.log2 z)) z) as Hne.
  pose proof (digitsOf_digits (S (Z.to_nat (Z.log2 z))) z) as D.
  destruct (digitsOf (S (Z.to_nat (Z.log2 z))) z []) as [|d ds];
    [now elim Hne|].
  cbn [forallb] in *. apply andb_true_iff in D as [Hd _].
  now rewrite (digit_not_space d Hd).
Qed.

Lemma parseIntOrDefault_String_of_Z (z fallback : Z) :
  parseIntOrDefault (Some (String_of_Z z)) fallback = Some z.
Proof.
  unfold parseIntOrDefault.
  rewrite trim_blank, String_of_Z_not_blank. apply parseInt_String_of_Z.
Qed.

(** The same behind a plus sign. *)
Lemma parseInt_plus_digits (ds rest : jsstring) :
  ds <> [] ->
  forallb isDigit ds = true ->
  match rest with [] => True | c :: _ => isDigit c = false end ->
  Number_parseInt10 (43 :: ds ++ rest) = Some (digitsValue 0 ds).
Proof.
  intros Hne D R.
  pose proof (takeDigits_app ds rest D R) as T.
  unfold Number_parseInt10.
  rewrite (trimStart_solid 43 _ eq_refl).
  cbv beta iota. rewrite T.
  destruct ds as [|d ds]; [now elim Hne|].
  f_equal; lia.
Qed.

Lemma nonEmptyDigits_spec (s : jsstring) :
  nonEmptyDigits s = true -> s <> [] /\ forallb isDigit s = true.
Proof.
  destruct s as [|c s]; [discriminate|].
  intros H. split; [discriminate | exact H].
Qed.

(** On a text that spells an integer the code reads what the specification
    reads. *)
Lemma parseIntOrDefault_spelled (raw : option jsstring) (fallback : Z) :
  spellsInteger raw = true ->
  parseIntOrDefault raw fallback = specNumber raw fallback.
Proof.
  destruct raw as [s|]; [|reflexivity].
  unfold spellsInteger, parseIntOrDefault, specNumber.
  rewrite trim_blank.
  destruct (forallb isWhiteSpace s); [reflexivity|]. cbn [orb].
  destruct s as [|c rest]; [discriminate|].
  unfold wholeInteger.
  destruct (N.eqb_spec c 45) as [->|H45].
  - destruct (nonEmptyDigits rest) eqn:D; [|discriminate]. intros _.
    apply nonEmptyDigits_spec in D as [Hne D].
    rewrite <- (app_nil_r rest) at 1.
    now apply parseInt_minus_digits.
  - destruct (N.eqb_spec c 43) as [->|H43].
    + destruct (nonEmptyDigits rest) eqn:D; [|discriminate]. intros _.
      apply nonEmptyDigits_spec in D as [Hne D].
      rewrite <- (app_nil_r rest) at 1.
      now apply parseInt_plus_digits.
    + destruct (nonEmptyDigits (c :: rest)) eqn:D; [|discriminate]. intros _.
      apply nonEmptyDigits_spec in D as [Hne D].
      rewrite <- (app_nil_r (c :: rest)) at 1.
      now apply parseInt_digits.
Qed.

(** Where the scale and the border are absent, blank or spell integers, in
    range or not, the message surfaced is that of the first invalid field in
    the order scale, border, error correction, and without an invalid field
    the options are accepted. *)
Lemma first_failure_on_integer_texts (input : Input.t) :
  spellsInteger (Input.scale input) = true ->
  spellsInteger (Input.border input) = true ->
  parseOptions input
  = match specFirstFailure input with
    | Some message => Invalid message
    | None => Valid {| Options.scale := scaleOf input;
                       Options.border := borderOf input;
                       Options.ecc := eccOf input |}
    end.
Proof.
  intros Hs Hb. rewrite parseOptions_cascade.
  unfold specFirstFailure, specScaleInvalid, specBorderInvalid, scaleFails,
    borderFails, scaleOf, borderOf.
  change DEFAULT_SCALE with 8%Z. change DEFAULT_BORDER with 4%Z.
  rewrite (parseIntOrDefault_spelled _ 8 Hs), (parseIntOrDefault_spelled _ 4 Hb).
  destruct (outside 1 40 _); [reflexivity|].
  destruct (outside 0 20 _); [reflexivity|].
  destruct (eccFails input); reflexivity.
Qed.

Lemma parseOptions_valid_fields (input : Input.t) (options : Options.t) :
  parseOptions input = Valid options ->
  options = {| Options.scale := scaleOf input; Options.border := borderOf input;
               Options.ecc := eccOf input |}.
Proof.
  rewrite parseOptions_cascade.
  destruct (scaleFails input); [discriminate|].
  destruct (borderFails input); [discriminate|].
  destruct (eccFails input); [discriminate|].
  now intros [= <-].
Qed.

Lemma parseIntOrDefault_blank (s : jsstring) (fallback : Z) :
  forallb isWhiteSpace s = true ->
  parseIntOrDefault (Some s) fallback = Some fallback.
Proof.
  intros W. unfold parseIntOrDefault. now rewrite trim_blank, W.
Qed.

Lemma parseIntOrDefault_digits (ds rest : jsstring) (fallback : Z) :
  ds <> [] ->
  forallb isDigit ds = true ->
  match rest with [] => True | c :: _ => isDigit c = false end ->
  parseIntOrDefault (Some (ds ++ rest)) fallback = Some (digitsValue 0 ds).
Proof.
  intros Hne D R. unfold parseIntOrDefault.
  rewrite trim_blank.
  destruct ds as [|d ds]; [now elim Hne|].
  pose proof D as D'. cbn [forallb] in D'. apply andb_true_iff in D' as [Hd _].
  cbn [app forallb]. rewrite (digit_not_space d Hd). cbn [andb].
  now apply (parseInt_digits (d :: ds) rest).
Qed.

(** X8: the decimal text of an integer [n] given as scale is accepted exactly
    when [1 <= n <= 40], and as border exactly when [0 <= n <= 20], with the
    value [n] itself; otherwise the message of that field is returned. *)
Theorem decimal_scale_and_border (n : Z) :
  parseOptions
    {| Input.scale := Some (String_of_Z n); Input.border := None;
       Input.ecc := None |}
  = (if ((1 <=? n) && (n <=? 40))%Z
     then Valid {| Options.scale := Some n; Options.border := Some 4%Z;
                   Options.ecc := js "M" |}
     else Invalid (js "scale must be an integer between 1 and 40"))
  /\ parseOptions
       {| Input.scale := None; Input.border := Some (String_of_Z n);
          Input.ecc := None |}
     = (if ((0 <=? n) && (n <=? 20))%Z
        then Valid {| Options.scale := Some 8%Z; Options.border := Some n;
                      Options.ecc := js "M" |}
        else Invalid (js "border must be an integer between 0 and 20")).
Proof.
  split; rewrite parseOptions_cascade;
    unfold scaleFails, borderFails, scaleOf, borderOf;
    cbn [Input.scale Input.border];
    rewrite parseIntOrDefault_String_of_Z; unfold outside.
  - destruct ((1 <=? n) && (n <=? 40))%Z; reflexivity.
  - change (parseIntOrDefault None DEFAULT_SCALE) with (Some 8%Z).
    cbv beta iota.
    change (negb ((1 <=? 8)%Z && (8 <=? 40)%Z)) with false. cbv iota.
    destruct ((0 <=? n) && (n <=? 20))%Z; reflexivity.
Qed.

(** X9: safe integers (of magnitude below 2^53, which [String] writes in
    plain decimal digits) given as numbers in a JSON body for scale and
    border are the cell size and the margin of the codec call the request
    leads to, whatever the query says. *)
Theorem body_numbers_reach_codec (w : World) (env : Env) (request : Request)
        (payload : JSValue) (n b : Z) (call : CodecCall) :
  method request = js "POST" ->
  pathname (url request) = js "/qr" ->
  declaresJson request = true ->
  requestJson request = Some payload ->
  (Z.abs n < 2 ^ 53)%Z ->
  (Z.abs b < 2 ^ 53)%Z ->
  getProperty payload (js "scale") = Some (JNumber (NumInt n)) ->
  getProperty payload (js "border") = Some (JNumber (NumInt b)) ->
  In call (codecCalls (fetch w request env)) ->
  cellSize call = Some n /\ margin call = Some b.
Proof.
  intros Hm Hp Hj Hb Hsafe Hsafe' Hs Hbo Hin.
  assert (Ho : notAnObject payload = false).
  { destruct payload; try discriminate; reflexivity. }
  rewrite (fetch_extracted w env request FromJsonBody _ _
             (ExtractedJson request payload Hm Hp Hj Hb Ho)) in Hin.
  unfold settle in Hin.
  destruct (negb (truthy (suppliedString payload (js "data"))));
    [destruct Hin|].
  destruct (parseOptions _) as [options|error] eqn:V; [|destruct Hin].
  apply parseOptions_valid_fields in V.
  destruct (buildQrResponse_outcome (qrcode w)
              (bang (suppliedString payload (js "data"))) options)
    as [E|[_ E]]; rewrite E in Hin; [destruct Hin|].
  destruct Hin as [<-|[]]. cbn [codecCallFor cellSize margin].
  rewrite V. cbn [Options.scale Options.border].
  unfold scaleOf, borderOf, suppliedNumeric. cbn [Input.scale Input.border].
  rewrite Hs, Hbo. cbn [preferBody String_of_number].
  now rewrite !parseIntOrDefault_String_of_Z.
Qed.

(** X10: a scale or border made only of white space is treated as absent. *)
Theorem blank_options_are_defaults (scale border : jsstring)
        (ecc : option jsstring) :
  forallb isWhiteSpace scale = true ->
  forallb isWhiteSpace border = true ->
  parseOptions
    {| Input.scale := Some scale; Input.border := Some border; Input.ecc := ecc |}
  = parseOptions {| Input.scale := None; Input.border := None; Input.ecc := ecc |}.
Proof.
  intros Ws Wb. rewrite !parseOptions_cascade.
  unfold scaleFails, borderFails, eccFails, scaleOf, borderOf, eccOf.
  cbn [Input.scale Input.border Input.ecc].
  rewrite (parseIntOrDefault_blank scale _ Ws),
    (parseIntOrDefault_blank border _ Wb).
  reflexivity.
Qed.

(** X11: of a scale or border that begins with decimal digits only those
    digits count; whatever follows them, from the first character that is
    not a digit, is ignored. *)
Theorem trailing_text_ignored (digits rest : jsstring) (c : N)
        (other ecc : option jsstring) :
  digits <> [] ->
  forallb isDigit digits = true ->
  isDigit c = false ->
  parseOptions
    {| Input.scale := Some (digits ++ c :: rest); Input.border := other;
       Input.ecc := ecc |}
  = parseOptions
      {| Input.scale := Some digits; Input.border := other; Input.ecc := ecc |}
  /\ parseOptions
       {| Input.scale := other; Input.border := Some (digits ++ c :: rest);
          Input.ecc := ecc |}
     = parseOptions
         {| Input.scale := other; Input.border := Some digits; Input.ecc := ecc |}.
Proof.
  intros Hne D Hc.
  assert (Hlong : forall fallback,
             parseIntOrDefault (Some (digits ++ c :: rest)) fallback
             = Some (digitsValue 0 digits)).
  { intros fallback. now apply parseIntOrDefault_digits. }
  assert (Hshort : forall fallback,
             parseIntOrDefault (Some digits) fallback
             = Some (digitsValue 0 digits)).
  { intros fallback. rewrite <- (app_nil_r digits) at 1.
    now apply parseIntOrDefault_digits. }
  split; rewrite !parseOptions_cascade;
    unfold scaleFails, borderFails, eccFails, scaleOf, borderOf, eccOf;
    cbn [Input.scale Input.border Input.ecc];
    rewrite !Hlong, !Hshort; reflexivity.
Qed.

(** ** Ad configuration sanitiser *)

Lemma stripPrefix_prefixed (p rest : jsstring) :
  stripPrefix p (p ++ rest) = Some rest.
Proof.
  induction p as [|x p IH]; [reflexivity|].
  cbn [app stripPrefix]. now rewrite N.eqb_refl.
Qed.

Lemma digitsBetween_spec (lo hi : nat) (s : jsstring) :
  digitsBetween lo hi s = true <->
  forallb isDigit s = true /\ (lo <= List.length s <= hi)%nat.
Proof.
  unfold digitsBetween. rewrite !andb_true_iff, !Nat.leb_le. tauto.
Qed.

(** X12: the client identifier passes exactly when it is [ca-pub-] followed
    by 10 to 20 decimal digits and the slot identifier exactly when it is 5
    to 20 decimal digits; what passes is handed on unchanged. *)
Theorem sanitiser_accepts_exactly (value : option jsstring) (id : jsstring) :
  (safeAdClient value = Some id <->
   value = Some id
   /\ exists digits,
        id = js "ca-pub-" ++ digits /\ forallb isDigit digits = true
        /\ (10 <= List.length digits <= 20)%nat)
  /\ (safeAdSlot value = Some id <->
      value = Some id /\ forallb isDigit id = true
      /\ (5 <= List.length id <= 20)%nat).
Proof.
  split; split.
  - apply safeAdClient_sound.
  - intros [-> (digits & -> & D & L)].
    unfold safeAdClient, adClientPattern.
    change (truthy (Some (js "ca-pub-" ++ digits))) with true. cbn [negb].
    rewrite stripPrefix_prefixed.
    now rewrite (proj2 (digitsBetween_spec 10 20 digits) (conj D L)).
  - apply safeAdSlot_sound.
  - intros (-> & D & L).
    unfold safeAdSlot, adSlotPattern.
    rewrite (proj2 (digitsBetween_spec 5 20 id) (conj D L)).
    destruct id; [simpl in L; lia | reflexivity].
Qed.

Lemma digit_not_special (c : N) : isDigit c = true -> ~ In c markupSpecial.
Proof.
  intros H. apply digit_values in H. unfold markupSpecial. simpl. lia.
Qed.

(** X13: an identifier that passed the sanitiser holds none of the characters
    with a meaning in markup (double quote, ampersand, apostrophe, angle
    brackets), so it cannot end the attribute it is written into. *)
Theorem sanitised_identifiers_are_inert (value : option jsstring) (id : jsstring) :
  safeAdClient value = Some id \/ safeAdSlot value = Some id ->
  forall c : N, In c id -> ~ In c markupSpecial.
Proof.
  intros [H|H] c Hc.
  - apply safeAdClient_sound in H as [_ (digits & -> & D & _)].
    apply in_app_or in Hc as [Hc|Hc].
    + simpl in Hc. unfold markupSpecial. simpl. lia.
    + rewrite forallb_forall in D. apply digit_not_special, D, Hc.
  - apply safeAdSlot_sound in H as (_ & D & _).
    rewrite forallb_forall in D. apply digit_not_special, D, Hc.
Qed.

Lemma includes_four (a b c d after : jsstring) :
  includes (a ++ b ++ c ++ d) (a ++ b ++ c ++ d ++ after) = true.
Proof.
  rewrite (app_assoc c d after), (app_assoc b (c ++ d) after),
    (app_assoc a (b ++ c ++ d) after).
  apply includes_head.
Qed.

(** X14: with both identifiers valid the landing page carries the account
    tag, the loader script and the ad unit with exactly the configured
    identifiers, in place of the fallback card; it is sent with status 200 as
    HTML cacheable for five minutes. *)
Theorem landingPage_with_ads (text : PageText) (url : URL) (env : Env)
        (client slot : jsstring) :
  safeAdClient (ADSENSE_CLIENT env) = Some client ->
  safeAdSlot (ADSENSE_SLOT env) = Some slot ->
  ADSENSE_CLIENT env = Some client
  /\ ADSENSE_SLOT env = Some slot
  /\ landingPage text url env =
     {| status := 200%Z;
        headers := [ (js "content-type", js "text/html; charset=utf-8");
                     (js "cache-control", js "public, max-age=300") ];
        body :=
          BodyText
            (uptoCanonical text ++ originOf url ++ uptoOgUrl text ++ originOf url
             ++ uptoAdMeta text ++ adsenseMetaMarkup client
             ++ uptoAdScript text ++ adsenseScriptMarkup client
             ++ uptoAdMarkup text ++ adUnitMarkup client slot
             ++ uptoGetExample text ++ originOf url ++ uptoPostExample text
             ++ originOf url ++ pageRest text) |}
  /\ includes (js "data-ad-client=" ++ quoted client) (adUnitMarkup client slot)
     = true
  /\ includes (js "data-ad-slot=" ++ quoted slot) (adUnitMarkup client slot)
     = true.
Proof.
  intros Hc Hs.
  pose proof (safeAdClient_sound _ _ Hc) as [Ec (digits & Eid & _ & _)].
  pose proof (safeAdSlot_sound _ _ Hs) as (Es & _ & Ls).
  split; [exact Ec|]. split; [exact Es|]. split.
  - unfold landingPage, landingPageHtml. rewrite Hc, Hs.
    assert (Tc : truthy (Some client) = true) by (rewrite Eid; reflexivity).
    assert (Ts : truthy (Some slot) = true).
    { destruct slot; [simpl in Ls; lia | reflexivity]. }
    rewrite Tc, Ts. reflexivity.
  - split; unfold adUnitMarkup, quoted.
    + do 10 apply includes_skip.
      change (js "     data-ad-client=")
        with (js "     " ++ js "data-ad-client=").
      rewrite <- (app_assoc (js "     ")). apply includes_skip.
      apply includes_four.
    + do 15 apply includes_skip.
      change (js "     data-ad-slot=") with (js "     " ++ js "data-ad-slot=").
      rewrite <- (app_assoc (js "     ")). apply includes_skip.
      apply includes_four.
Qed.

(** ** Static documents *)

Lemma fetch_get_robots (w : World) (request : Request) (env : Env) :
  method request = js "GET" ->
  pathname (url request) = js "/robots.txt" ->
  fetch w request env = direct (robotsTxt (url request)).
Proof.
  intros Hm Hp. unfold fetch, routeIs. rewrite Hm, Hp. reflexivity.
Qed.

Lemma fetch_get_sitemap (w : World) (request : Request) (env : Env) :
  method request = js "GET" ->
  pathname (url request) = js "/sitemap.xml" ->
  fetch w request env = direct (sitemapXml (url request)).
Proof.
  intros Hm Hp. unfold fetch, routeIs. rewrite Hm, Hp. reflexivity.
Qed.

Lemma includes_three (a b c after : jsstring) :
  includes (a ++ b ++ c) (a ++ b ++ c ++ after) = true.
Proof.
  rewrite (app_assoc b c after), (app_assoc a (b ++ c) after).
  apply includes_head.
Qed.

(** X15: the crawler policy names the sitemap of the origin the request came
    to, and the sitemap lists the landing page of that origin; both are sent
    with status 200, cacheable for an hour. *)
Theorem static_documents_name_request_origin (w : World) (request : Request)
        (env : Env) :
  method request = js "GET" ->
  (pathname (url request) = js "/robots.txt" ->
   exists text,
     fetch w request env =
     direct {| status := 200%Z;
               headers := [ (js "content-type", js "text/plain; charset=utf-8");
                            (js "cache-control", js "public, max-age=3600") ];
               body := BodyText text |}
     /\ includes
          (js "Sitemap: " ++ originOf (url request) ++ js "/sitemap.xml") text
        = true)
  /\ (pathname (url request) = js "/sitemap.xml" ->
      exists text,
        fetch w request env =
        direct {| status := 200%Z;
                  headers := [ (js "content-type",
                                js "application/xml; charset=utf-8");
                               (js "cache-control", js "public, max-age=3600") ];
                  body := BodyText text |}
        /\ includes
             (js "<loc>" ++ originOf (url request) ++ js "/</loc>") text
           = true).
Proof.
  intros Hm. split; intros Hp.
  - rewrite (fetch_get_robots w request env Hm Hp).
    eexists. split; [reflexivity|].
    do 25 apply includes_skip. apply includes_three.
  - rewrite (fetch_get_sitemap w request env Hm Hp).
    eexists. split; [reflexivity|].
    do 18 apply includes_skip.
    change (js "    <loc>") with (js "    " ++ js "<loc>").
    rewrite <- (app_assoc (js "    ")). apply includes_skip.
    apply includes_three.
Qed.

(** ** Error responses *)

Lemma parseOptions_invalid_message (input : Input.t) (error : jsstring) :
  parseOptions input = Invalid error ->
  error = scaleError \/ error = borderError \/ error = eccError.
Proof.
  rewrite parseOptions_cascade.
  destruct (scaleFails input); [intros [= <-]; tauto|].
  destruct (borderFails input); [intros [= <-]; tauto|].
  destruct (eccFails input); [intros [= <-]; tauto | discriminate].
Qed.

Lemma errorMessages_bodies (message : jsstring) :
  In message errorMessages ->
  body (badRequest message) = BodyText (errorBody message).
Proof.
  unfold errorMessages. simpl In. intros H.
  repeat (destruct H as [<-|H]; [vm_compute; reflexivity|]).
  destruct H.
Qed.

Lemma buildQrResponse_error (codec : Codec) (data : jsstring)
      (options : Options.t) :
  status (response (buildQrResponse codec data options)) = 400%Z ->
  exists message,
    In message errorMessages
    /\ buildQrResponse codec data options
       = {| response := badRequest message;
            codecCalls := codecCalls (buildQrResponse codec data options) |}.
Proof.
  destruct (buildQrResponse_outcome codec data options) as [E|[_ E]];
    rewrite E.
  - intros _. exists dataTooLong. split; [|reflexivity].
    unfold errorMessages. simpl. tauto.
  - cbn [response codecCalls]. destruct (codec _).
    + intros H. discriminate H.
    + intros _. exists unableToEncode. split; [|reflexivity].
      unfold errorMessages. simpl. tauto.
Qed.

(** X16: a response with status 400 is the JSON object with the one field
    [error] holding one of nine fixed messages; nothing of the request is
    echoed in it. *)
Theorem error_messages_are_fixed (w : World) (request : Request) (env : Env) :
  status (response (fetch w request env)) = 400%Z ->
  exists message,
    In message errorMessages
    /\ response (fetch w request env) = badRequest message
    /\ body (response (fetch w request env)) = BodyText (errorBody message).
Proof.
  assert (Known : forall (o : Outcome) (message : jsstring),
             In message errorMessages ->
             response o = badRequest message ->
             exists message0,
               In message0 errorMessages
               /\ response o = badRequest message0
               /\ body (response o) = BodyText (errorBody message0)).
  { intros o message Hin E. exists message.
    split; [exact Hin|]. split; [exact E|].
    rewrite E. now apply errorMessages_bodies. }
  assert (Options : forall input error,
             parseOptions input = Invalid error -> In error errorMessages).
  { intros input error V.
    destruct (parseOptions_invalid_message input error V) as [->|[->| ->]];
      vm_compute; tauto. }
  assert (Built : forall data options,
             status (response (buildQrResponse (qrcode w) data options)) = 400%Z ->
             exists message0,
               In message0 errorMessages
               /\ response (buildQrResponse (qrcode w) data options)
                  = badRequest message0
               /\ body (response (buildQrResponse (qrcode w) data options))
                  = BodyText (errorBody message0)).
  { intros data options H.
    destruct (buildQrResponse_error (qrcode w) data options H)
      as (message & Hin & E).
    apply (Known _ message Hin). rewrite E. reflexivity. }
  fetch_routes; try (intros H; discriminate H).
  - unfold qrFromQuery.
    destruct (negb _).
    + intros _. eapply Known; [|reflexivity]. vm_compute; tauto.
    + destruct (parseOptions _) as [options|error] eqn:V.
      * apply Built.
      * intros _. eapply Known; [|reflexivity]. eapply Options, V.
  - unfold qrFromBody.
    destruct (qrFromBody_extract request (url request))
      as [early|[data input]] eqn:E.
    + intros _. unfold qrFromBody_extract in E.
      destruct (includes _ _); [|discriminate].
      destruct (requestJson request) as [body|].
      * destruct (notAnObject body); [|discriminate].
        injection E as <-. eapply Known; [|reflexivity]. vm_compute; tauto.
      * injection E as <-. eapply Known; [|reflexivity]. vm_compute; tauto.
    + destruct (negb _).
      * intros _. eapply Known; [|reflexivity]. vm_compute; tauto.
      * destruct (parseOptions input) as [options|error] eqn:V.
        -- apply Built.
        -- intros _. eapply Known; [|reflexivity]. eapply Options, V.
Qed.

(** ** Entity tag and image response *)

Lemma hexDigitsOf_at_least (fuel : nat) (n : Z) (acc : jsstring) :
  (List.length acc <= List.length (hexDigitsOf fuel n acc))%nat.
Proof.
  revert n acc. induction fuel as [|fuel IH]; intros n acc; [apply Nat.le_refl|].
  cbn [hexDigitsOf]. cbv zeta.
  destruct (n / 16 =? 0)%Z.
  - cbn [List.length]. lia.
  - etransitivity; [|apply IH]. cbn [List.length]. lia.
Qed.

Lemma hexDigitsOf_at_most (fuel k : nat) (n : Z) (acc : jsstring) :
  (1 <= k)%nat ->
  (0 <= n < 16 ^ Z.of_nat k)%Z ->
  (List.length (hexDigitsOf fuel n acc) <= k + List.length acc)%nat.
Proof.
  revert k n acc. induction fuel as [|fuel IH]; intros k n acc Hk Hn.
  - cbn [hexDigitsOf]. lia.
  - cbn [hexDigitsOf]. cbv zeta.
    destruct (Z.eqb_spec (n / 16) 0) as [E|E].
    + cbn [List.length]. lia.
    + destruct k as [|[|k]]; [lia| |].
      * exfalso. apply E. apply Z.div_small. change (16 ^ Z.of_nat 1)%Z with 16%Z in Hn.
        lia.
      * specialize (IH (S k) (n / 16)%Z
                       (hexDigit (Z.to_N (n mod 16)) :: acc) ltac:(lia)).
        cbn [List.length] in IH.
        rewrite (Nat2Z.inj_succ (S k)), Z.pow_succ_r in Hn by lia.
        assert (0 <= n / 16 < 16 ^ Z.of_nat (S k))%Z.
        { split; [apply Z.div_pos; lia|].
          apply Z.div_lt_upper_bound; lia. }
        specialize (IH H). lia.
Qed.

(** X17: for every text the hash is printed as one to eight lowercase
    hexadecimal digits. *)
Theorem simpleHash_shape (value : jsstring) :
  (1 <= List.length (simpleHash value) <= 8)%nat
  /\ forallb isLowerHex (simpleHash value) = true.
Proof.
  unfold simpleHash, toString16. cbv zeta. split; [split|].
  - set (n := toUint32 _).
    cbn [hexDigitsOf]. cbv zeta.
    destruct (n / 16 =? 0)%Z; [cbn [List.length]; lia|].
    etransitivity; [|apply hexDigitsOf_at_least]. cbn [List.length]. lia.
  - set (n := toUint32 _).
    change 8%nat with (8 + @List.length N [])%nat.
    apply hexDigitsOf_at_most; [lia|].
    subst n. unfold toUint32.
    change (16 ^ Z.of_nat 8)%Z with (2 ^ 32)%Z.
    apply Z.mod_pos_bound. reflexivity.
  - apply hexDigitsOf_lower. reflexivity.
Qed.

(** X18: the loop of [simpleHash], written with the signed 32-bit operators
    [^] and [Math.imul], computes the unsigned 32-bit FNV-1a hash of the code
    units of the text. *)
Theorem simpleHash_unsigned_fnv (value : jsstring) :
  Forall (fun c => c < 65536) value ->
  simpleHash value = toString16 (fnv1a32 value)
  /\ (0 <= fnv1a32 value < 2 ^ 32)%Z.
Proof.
  intros Hv.
  assert (Hz : Forall (fun c => (Z.of_N c < 2 ^ 32)%Z) value).
  { eapply Forall_impl; [|exact Hv]. cbv beta. intros c Hc.
    change (2 ^ 32)%Z with 4294967296%Z. lia. }
  pose proof (hashLoop_fnv value 2166136261 2166136261 Hz eq_refl) as E.
  split.
  - unfold simpleHash, fnv1a32. cbv zeta. now rewrite E.
  - unfold fnv1a32. rewrite <- E. unfold toUint32.
    apply Z.mod_pos_bound. reflexivity.
Qed.


(** ** Option normaliser, completed *)

Lemma toUpperCaseUnit_idempotent (c : N) :
  toUpperCaseUnit (toUpperCaseUnit c) = toUpperCaseUnit c.
Proof.
  unfold toUpperCaseUnit.
  destruct ((97 <=? c) && (c <=? 122)) eqn:E.
  - apply andb_true_iff in E as [E1 E2]. apply N.leb_le in E1, E2.
    destruct (N.leb_spec 97 (c - 32)); [lia | reflexivity].
  - now rewrite E.
Qed.

(** X20: the ecc parameter is case-insensitive for every text: writing it in
    upper case beforehand does not change the result. *)
Theorem ecc_case_insensitive (scale border : option jsstring) (ecc : jsstring) :
  parseOptions
    {| Input.scale := scale; Input.border := border; Input.ecc := Some ecc |}
  = parseOptions
      {| Input.scale := scale; Input.border := border;
         Input.ecc := Some (toUpperCase ecc) |}.
Proof.
  rewrite !parseOptions_cascade.
  unfold scaleFails, borderFails, eccFails, scaleOf, borderOf, eccOf.
  cbn [Input.scale Input.border Input.ecc].
  assert (E : toUpperCase (toUpperCase ecc) = toUpperCase ecc).
  { unfold toUpperCase. rewrite map_map.
    apply map_ext. apply toUpperCaseUnit_idempotent. }
  rewrite E. reflexivity.
Qed.


(** ** From request to codec call *)

Lemma settle_calls (codec : Codec) (source : Source) (data : option jsstring)
      (input : Input.t) (call : CodecCall) :
  In call (codecCalls (settle codec source data input)) ->
  exists payload options,
    data = Some payload
    /\ payload <> []
    /\ (List.length payload <= 2048)%nat
    /\ parseOptions input = Valid options
    /\ call = codecCallFor payload options
    /\ settle codec source data input
       = {| response :=
              match codec call with
              | Throws _ => badRequest unableToEncode
              | Svg svg => imageResponse svg
              end;
            codecCalls := [call] |}.
Proof.
  unfold settle.
  destruct data as [[|c payload]|]; cbn [truthy negb bang];
    try (intros H; now elim H).
  destruct (parseOptions input) as [options|error] eqn:V;
    [|intros H; now elim H].
  destruct (buildQrResponse_outcome codec (c :: payload) options)
    as [E|[L E]]; rewrite E; cbn [codecCalls direct].
  - intros H; now elim H.
  - intros [<-|[]]. exists (c :: payload), options.
    repeat split; try assumption; try discriminate.
Qed.

(** X22: the payload reaches the codec unchanged, as the query parameter, the
    [data] field or the raw body gave it: it is neither trimmed nor
    normalised. *)
Theorem payload_reaches_codec_unchanged (w : World) (env : Env)
        (request : Request) (source : Source) (data : option jsstring)
        (input : Input.t) (call : CodecCall) :
  Extracted request source data input ->
  In call (codecCalls (fetch w request env)) ->
  data = Some (callData call).
Proof.
  intros E Hin.
  rewrite (fetch_extracted w env request source data input E) in Hin.
  apply settle_calls in Hin as (payload & options & -> & _ & _ & _ & -> & _).
  reflexivity.
Qed.

(** X23: a request to the encoding endpoint with a payload of 1 to 2048 code
    units and options that pass, for which the codec delivers an SVG text, is
    answered with the image response for that text after exactly one codec
    call. *)
Theorem valid_request_succeeds (w : World) (env : Env) (request : Request)
        (source : Source) (data : jsstring) (input : Input.t)
        (options : Options.t) (svg : jsstring) :
  Extracted request source (Some data) input ->
  (1 <= List.length data <= 2048)%nat ->
  parseOptions input = Valid options ->
  qrcode w (codecCallFor data options) = Svg svg ->
  fetch w request env
  = {| response := imageResponse svg;
       codecCalls := [codecCallFor data options] |}
  /\ status (response (fetch w request env)) = 200%Z.
Proof.
  intros E L V Hok.
  rewrite (fetch_extracted w env request source _ input E).
  unfold settle. rewrite V.
  destruct data as [|c data]; [simpl in L; lia|].
  cbn [truthy negb bang].
  rewrite buildQrResponse_short by lia. rewrite Hok. split; reflexivity.
Qed.

(** X24: when a request gives none of the three options, the codec is called
    with cell size 8, margin 4 and level [M]. *)
Theorem absent_options_use_defaults (w : World) (env : Env) (request : Request)
        (source : Source) (data : option jsstring) (call : CodecCall) :
  Extracted request source data
    {| Input.scale := None; Input.border := None; Input.ecc := None |} ->
  In call (codecCalls (fetch w request env)) ->
  cellSize call = Some 8%Z /\ margin call = Some 4%Z /\ callEcc call = js "M".
Proof.
  intros E Hin.
  rewrite (fetch_extracted w env request source data _ E) in Hin.
  apply settle_calls in Hin as (payload & options & _ & _ & _ & V & -> & _).
  change (parseOptions _) with (Valid defaultOptions) in V.
  injection V as <-. repeat split.
Qed.

(** * The further properties at sample requests *)

Lemma not_found_iff_unmatched_witness :
  ~ In (method deleteRequest, pathname (url deleteRequest)) knownRoutes
  /\ fetch (sampleWorld sampleCodec) deleteRequest noEnv = direct notFound.
Proof.
  assert (Hout : ~ In (method deleteRequest, pathname (url deleteRequest))
                     knownRoutes).
  { simpl. intros H.
    repeat (destruct H as [H|H]; [discriminate H|]). exact H. }
  split; [exact Hout|].
  exact (proj1 (not_found_iff_unmatched (sampleWorld sampleCodec) deleteRequest
                  noEnv) Hout).
Defined.

Lemma codec_call_within_contract_witness :
  In (codecCallFor (js "hello") defaultOptions)
     (codecCalls (fetch (sampleWorld sampleCodec) helloRequest noEnv))
  /\ (1 <= List.length (callData (codecCallFor (js "hello") defaultOptions))
      <= 2048)%nat
  /\ (exists s, cellSize (codecCallFor (js "hello") defaultOptions) = Some s
                /\ (1 <= s <= 40)%Z)
  /\ (exists b, margin (codecCallFor (js "hello") defaultOptions) = Some b
                /\ (0 <= b <= 20)%Z)
  /\ In (callEcc (codecCallFor (js "hello") defaultOptions))
        [js "L"; js "M"; js "Q"; js "H"].
Proof.
  assert (Hin : In (codecCallFor (js "hello") defaultOptions)
                   (codecCalls
                      (fetch (sampleWorld sampleCodec) helloRequest noEnv)))
    by (vm_compute; left; reflexivity).
  split; [exact Hin|].
  exact (codec_call_within_contract (sampleWorld sampleCodec) helloRequest noEnv
           _ Hin).
Defined.

Lemma malformed_json_body_rejected_witness :
  method brokenJsonRequest = js "POST"
  /\ pathname (url brokenJsonRequest) = js "/qr"
  /\ declaresJson brokenJsonRequest = true
  /\ requestJson brokenJsonRequest = None
  /\ fetch (sampleWorld sampleCodec) brokenJsonRequest noEnv
     = direct (badRequest (js "Invalid JSON body")).
Proof.
  split; [reflexivity|]. split; [reflexivity|].
  split; [reflexivity|]. split; [reflexivity|].
  exact (proj1 (malformed_json_body_rejected (sampleWorld sampleCodec) noEnv
                  brokenJsonRequest eq_refl eq_refl eq_refl) eq_refl).
Defined.

Lemma payload_must_be_a_string_witness :
  method arrayBodyRequest = js "POST"
  /\ pathname (url arrayBodyRequest) = js "/qr"
  /\ declaresJson arrayBodyRequest = true
  /\ requestJson arrayBodyRequest = Some (JArray [JString (js "hello")])
  /\ notAnObject (JArray [JString (js "hello")]) = false
  /\ (forall s,
        getProperty (JArray [JString (js "hello")]) (js "data")
        <> Some (JString s))
  /\ fetch (sampleWorld sampleCodec) arrayBodyRequest noEnv
     = direct (badRequest (js "Missing data in request body")).
Proof.
  assert (Hd : forall s,
             getProperty (JArray [JString (js "hello")]) (js "data")
             <> Some (JString s)) by (intros s H; discriminate H).
  split; [reflexivity|]. split; [reflexivity|].
  split; [reflexivity|]. split; [reflexivity|].
  split; [reflexivity|]. split; [exact Hd|].
  exact (payload_must_be_a_string (sampleWorld sampleCodec) noEnv
           arrayBodyRequest _ eq_refl eq_refl eq_refl eq_refl eq_refl Hd).
Defined.

Lemma validation_order_witness :
  Extracted overlongBadScaleRequest FromRawBody (Some overlongData)
    {| Input.scale := Some (js "big"); Input.border := None; Input.ecc := None |}
  /\ truthy (Some overlongData) = true
  /\ parseOptions
       {| Input.scale := Some (js "big"); Input.border := None;
          Input.ecc := None |}
     = Invalid scaleError
  /\ fetch (sampleWorld sampleCodec) overlongBadScaleRequest noEnv
     = direct (badRequest scaleError).
Proof.
  assert (E : Extracted overlongBadScaleRequest FromRawBody (Some overlongData)
                {| Input.scale := Some (js "big"); Input.border := None;
                   Input.ecc := None |})
    by exact (ExtractedRaw overlongBadScaleRequest eq_refl eq_refl eq_refl).
  split; [exact E|]. split; [reflexivity|]. split; [reflexivity|].
  exact (proj2 (validation_order (sampleWorld sampleCodec) noEnv
                  overlongBadScaleRequest FromRawBody _ _ E)
           scaleError eq_refl eq_refl).
Defined.

Lemma body_numbers_reach_codec_witness :
  method numericBodyRequest = js "POST"
  /\ pathname (url numericBodyRequest) = js "/qr"
  /\ declaresJson numericBodyRequest = true
  /\ (Z.abs 12 < 2 ^ 53)%Z
  /\ (Z.abs 0 < 2 ^ 53)%Z
  /\ In {| callEcc := js "M"; callData := js "hello"; cellSize := Some 12%Z;
           margin := Some 0%Z |}
        (codecCalls (fetch (sampleWorld sampleCodec) numericBodyRequest noEnv))
  /\ cellSize
       {| callEcc := js "M"; callData := js "hello"; cellSize := Some 12%Z;
          margin := Some 0%Z |} = Some 12%Z
  /\ margin
       {| callEcc := js "M"; callData := js "hello"; cellSize := Some 12%Z;
          margin := Some 0%Z |} = Some 0%Z.
Proof.
  assert (Hin : In {| callEcc := js "M"; callData := js "hello";
                      cellSize := Some 12%Z; margin := Some 0%Z |}
                   (codecCalls
                      (fetch (sampleWorld sampleCodec) numericBodyRequest noEnv)))
    by (vm_compute; left; reflexivity).
  split; [reflexivity|]. split; [reflexivity|]. split; [reflexivity|].
  split; [reflexivity|]. split; [reflexivity|].
  split; [exact Hin|].
  exact (body_numbers_reach_codec (sampleWorld sampleCodec) noEnv
           numericBodyRequest _ 12 0 _ eq_refl eq_refl eq_refl eq_refl
           eq_refl eq_refl eq_refl eq_refl Hin).
Defined.

Lemma blank_options_are_defaults_witness :
  forallb isWhiteSpace (js "  ") = true
  /\ forallb isWhiteSpace [9] = true
  /\ parseOptions
       {| Input.scale := Some (js "  "); Input.border := Some [9];
          Input.ecc := Some (js "h") |}
     = parseOptions
         {| Input.scale := None; Input.border := None; Input.ecc := Some (js "h") |}.
Proof.
  split; [reflexivity|]. split; [reflexivity|].
  exact (blank_options_are_defaults (js "  ") [9] (Some (js "h"))
           eq_refl eq_refl).
Defined.

Lemma trailing_text_ignored_witness :
  js "8" <> []
  /\ forallb isDigit (js "8") = true
  /\ isDigit 112 = false
  /\ parseOptions
       {| Input.scale := Some (js "8" ++ 112 :: js "x"); Input.border := None;
          Input.ecc := None |}
     = parseOptions
         {| Input.scale := Some (js "8"); Input.border := None; Input.ecc := None |}.
Proof.
  assert (Hne : js "8" <> []) by discriminate.
  split; [exact Hne|]. split; [reflexivity|]. split; [reflexivity|].
  exact (proj1 (trailing_text_ignored (js "8") (js "x") 112 None None Hne
                  eq_refl eq_refl)).
Defined.

Lemma sanitised_identifiers_are_inert_witness :
  (safeAdClient (Some (js "ca-pub-1234567890123456"))
   = Some (js "ca-pub-1234567890123456")
   \/ safeAdSlot (Some (js "ca-pub-1234567890123456"))
      = Some (js "ca-pub-1234567890123456"))
  /\ forall c : N,
       In c (js "ca-pub-1234567890123456") -> ~ In c markupSpecial.
Proof.
  assert (H : safeAdClient (Some (js "ca-pub-1234567890123456"))
              = Some (js "ca-pub-1234567890123456")
              \/ safeAdSlot (Some (js "ca-pub-1234567890123456"))
                 = Some (js "ca-pub-1234567890123456"))
    by (left; reflexivity).
  split; [exact H|].
  exact (sanitised_identifiers_are_inert _ _ H).
Defined.

Lemma landingPage_with_ads_witness :
  safeAdClient (ADSENSE_CLIENT fullAdEnv) = Some (js "ca-pub-1234567890123456")
  /\ safeAdSlot (ADSENSE_SLOT fullAdEnv) = Some (js "1234567890")
  /\ includes (js "data-ad-slot=" ++ quoted (js "1234567890"))
       (adUnitMarkup (js "ca-pub-1234567890123456") (js "1234567890")) = true.
Proof.
  split; [reflexivity|]. split; [reflexivity|].
  destruct (landingPage_with_ads samplePageText landingUrl fullAdEnv _ _
              eq_refl eq_refl) as (_ & _ & _ & _ & Hslot).
  exact Hslot.
Defined.

Lemma static_documents_name_request_origin_witness :
  method robotsRequest = js "GET"
  /\ pathname (url robotsRequest) = js "/robots.txt"
  /\ exists text,
       fetch (sampleWorld sampleCodec) robotsRequest noEnv =
       direct {| status := 200%Z;
                 headers := [ (js "content-type", js "text/plain; charset=utf-8");
                              (js "cache-control", js "public, max-age=3600") ];
                 body := BodyText text |}
       /\ includes
            (js "Sitemap: " ++ originOf (url robotsRequest) ++ js "/sitemap.xml")
            text
          = true.
Proof.
  split; [reflexivity|]. split; [reflexivity|].
  exact (proj1 (static_documents_name_request_origin (sampleWorld sampleCodec)
                  robotsRequest noEnv eq_refl) eq_refl).
Defined.

Lemma error_messages_are_fixed_witness :
  status (response (fetch (sampleWorld sampleCodec) emptyQueryRequest noEnv))
  = 400%Z
  /\ exists message,
       In message errorMessages
       /\ response (fetch (sampleWorld sampleCodec) emptyQueryRequest noEnv)
          = badRequest message
       /\ body (response (fetch (sampleWorld sampleCodec) emptyQueryRequest noEnv))
          = BodyText (errorBody message).
Proof.
  split; [reflexivity|].
  exact (error_messages_are_fixed (sampleWorld sampleCodec) emptyQueryRequest
           noEnv eq_refl).
Defined.

Lemma simpleHash_unsigned_fnv_witness :
  Forall (fun c => c < 65536) (js "QR")
  /\ simpleHash (js "QR") = toString16 (fnv1a32 (js "QR"))
  /\ (0 <= fnv1a32 (js "QR") < 2 ^ 32)%Z.
Proof.
  assert (H : Forall (fun c => c < 65536) (js "QR"))
    by (repeat constructor).
  split; [exact H|].
  exact (simpleHash_unsigned_fnv (js "QR") H).
Defined.


Lemma payload_reaches_codec_unchanged_witness :
  Extracted helloRequest FromQuery (Some (js "hello")) noInput
  /\ In (codecCallFor (js "hello") defaultOptions)
        (codecCalls (fetch (sampleWorld sampleCodec) helloRequest noEnv))
  /\ Some (js "hello") = Some (callData (codecCallFor (js "hello") defaultOptions)).
Proof.
  assert (E : Extracted helloRequest FromQuery (Some (js "hello")) noInput)
    by exact (ExtractedQuery helloRequest eq_refl eq_refl).
  assert (Hin : In (codecCallFor (js "hello") defaultOptions)
                   (codecCalls
                      (fetch (sampleWorld sampleCodec) helloRequest noEnv)))
    by (vm_compute; left; reflexivity).
  split; [exact E|]. split; [exact Hin|].
  exact (payload_reaches_codec_unchanged (sampleWorld sampleCodec) noEnv
           helloRequest FromQuery _ noInput _ E Hin).
Defined.

Lemma valid_request_succeeds_witness :
  Extracted helloRequest FromQuery (Some (js "hello")) noInput
  /\ (1 <= List.length (js "hello") <= 2048)%nat
  /\ parseOptions noInput = Valid defaultOptions
  /\ sampleCodec (codecCallFor (js "hello") defaultOptions) = Svg sampleSvg
  /\ fetch (sampleWorld sampleCodec) helloRequest noEnv
     = {| response := imageResponse sampleSvg;
          codecCalls := [codecCallFor (js "hello") defaultOptions] |}.
Proof.
  assert (E : Extracted helloRequest FromQuery (Some (js "hello")) noInput)
    by exact (ExtractedQuery helloRequest eq_refl eq_refl).
  assert (L : (1 <= List.length (js "hello") <= 2048)%nat)
    by (vm_compute; split; repeat constructor).
  split; [exact E|]. split; [exact L|]. split; [reflexivity|].
  split; [reflexivity|].
  exact (proj1 (valid_request_succeeds (sampleWorld sampleCodec) noEnv
                  helloRequest FromQuery (js "hello") noInput defaultOptions
                  sampleSvg E L eq_refl eq_refl)).
Defined.

Lemma absent_options_use_defaults_witness :
  Extracted helloRequest FromQuery (Some (js "hello"))
    {| Input.scale := None; Input.border := None; Input.ecc := None |}
  /\ In (codecCallFor (js "hello") defaultOptions)
        (codecCalls (fetch (sampleWorld sampleCodec) helloRequest noEnv))
  /\ cellSize (codecCallFor (js "hello") defaultOptions) = Some 8%Z
  /\ margin (codecCallFor (js "hello") defaultOptions) = Some 4%Z
  /\ callEcc (codecCallFor (js "hello") defaultOptions) = js "M".
Proof.
  assert (E : Extracted helloRequest FromQuery (Some (js "hello"))
                {| Input.scale := None; Input.border := None;
                   Input.ecc := None |})
    by exact (ExtractedQuery helloRequest eq_refl eq_refl).
  assert (Hin : In (codecCallFor (js "hello") defaultOptions)
                   (codecCalls
                      (fetch (sampleWorld sampleCodec) helloRequest noEnv)))
    by (vm_compute; left; reflexivity).
  split; [exact E|]. split; [exact Hin|].
  exact (absent_options_use_defaults (sampleWorld sampleCodec) noEnv
           helloRequest FromQuery _ _ E Hin).
Defined.
